(** * DNA sequence generator with an embedded name: a shallow embedding

    The program under study is a single Python script.  It draws a random
    sequence over the alphabet ACGT, splices a user-supplied name into it,
    writes a FASTA record, computes per-base percentages over the letters
    of the alphabet and plots them.

    This file embeds the script function by function and proves the
    properties stated about it.  Python values are modelled as follows.

    - [str]: a list of characters ([ascii], a code point below 256);
      slices are [take]/[drop], [len] is [length], [+] is [++].  Python
      has no character type: the one-character strings obtained by
      iterating over a [str] are modelled as [ascii].  The prompts of
      the script contain Polish letters; they appear here as the bytes
      of their UTF-8 encoding, and nothing depends on them.
    - [int]: [Z].
    - [float]: IEEE 754 binary64, as [spec_float] with the rounding
      functions of the Standard Library's [SpecFloat].
    - [dict]: stdpp's [gmap].
    - exceptions: the [Raise] constructor of [result].
    - the console, the random source, the file system and the plotting
      library: fields of an explicit [world] threaded through a state and
      exception monad. *)

From Stdlib Require Import ZArith QArith Qabs Lia Lqa Ascii String SpecFloat
  DecimalString.
From stdpp Require Import gmap strings list fin_maps.

Local Open Scope Z_scope.

(** ** Strings *)

Abbreviation str := (list ascii) (only parsing).

(** A Python string literal. *)
Definition lit (s : string) : str := list_ascii_of_string s.

(** The line terminator. *)
Definition nl : str := ["010"%char].

(** [c.isspace()] for a character below 256: the ASCII controls 9-13 and
    28-31, the space, NEL and the no-break space. *)
Definition isspace (c : ascii) : bool :=
  let n := nat_of_ascii c in
  ((9 <=? n) && (n <=? 13) || (28 <=? n) && (n <=? 32) || (n =? 133) || (n =? 160))%nat.

(** [s.lstrip()], [s.rstrip()] and [s.strip()] with no argument. *)
Fixpoint lstrip (s : str) : str :=
  match s with
  | [] => []
  | c :: s' => if isspace c then lstrip s' else s
  end.

Definition rstrip (s : str) : str := reverse (lstrip (reverse s)).

Definition strip (s : str) : str := rstrip (lstrip s).

(** Truth value of a string: the empty string is false. *)
Definition str_truthy (s : str) : bool :=
  match s with
  | [] => false
  | _ :: _ => true
  end.

(** Slice bounds: a negative index counts from the end, and [take] and
    [drop] clamp at the length as Python's slices do. *)
Definition slice_index (s : str) (i : Z) : nat :=
  if i <? 0 then Z.to_nat (Z.of_nat (length s) + i) else Z.to_nat i.

(** [s[:stop]] and [s[start:]]. *)
Definition slice_until (s : str) (stop : Z) : str := take (slice_index s stop) s.
Definition slice_from (s : str) (start : Z) : str := drop (slice_index s start) s.

(** [s.count(c)] for a one-character [c]. *)
Definition str_count (s : str) (c : ascii) : Z := Z.of_nat (count_occ ascii_dec s c).

(** [''.join(cs)] for a list of one-character strings. *)
Definition join_chars (cs : list ascii) : str := cs.

(** The lines of a text, as [text.split('\n')] gives them. *)
Fixpoint split_lines (text : str) : list str :=
  match text with
  | [] => [[]]
  | c :: text' =>
      if Ascii.eqb c "010" then [] :: split_lines text'
      else match split_lines text' with
           | [] => [[c]]
           | l :: ls => (c :: l) :: ls
           end
  end.

(** ** Exceptions and results *)

Inductive exn :=
| EOFError
| OSError
| ValueError
| ZeroDivisionError
| OverflowError
| KeyError
| IndexError.

Inductive result (A : Type) :=
| Ok (a : A)
| Raise (e : exn).
Arguments Ok {A} a.
Arguments Raise {A} e.

Global Instance result_ret : MRet result := @Ok.
Global Instance result_bind : MBind result := λ A B k r,
  match r with
  | Ok a => k a
  | Raise e => Raise e
  end.
Global Instance result_fmap : FMap result := λ A B f r,
  match r with
  | Ok a => Ok (f a)
  | Raise e => Raise e
  end.

(** ** Numbers *)

(** binary64: 53 bits of precision, exponent of the infinities 1024. *)
Definition prec : Z := 53.
Definition emax : Z := 1024.

(** The values an arithmetic expression of the script can take: an [int]
    or a [float]. *)
Inductive pynum :=
| PyInt (z : Z)
| PyFloat (f : spec_float).

(** [a / b] on two [int]s.  CPython's true division of integers raises
    [ZeroDivisionError] on a zero divisor, returns the float nearest to
    the exact quotient (ties to even), and raises [OverflowError] when
    that float would be infinite.  The quotient is computed to enough
    digits by [SFdiv_core_binary] and rounded by [binary_round_aux]. *)
Definition int_true_divide (a b : Z) : result spec_float :=
  if b =? 0 then Raise ZeroDivisionError
  else if a =? 0 then Ok (S754_zero (b <? 0))
  else
    let sign := xorb (a <? 0) (b <? 0) in
    let '(q, e, l) := SFdiv_core_binary prec emax (Z.abs a) 0 (Z.abs b) 0 in
    match binary_round_aux prec emax sign q e l with
    | S754_infinity _ => Raise OverflowError
    | S754_nan => Raise OverflowError
    | f => Ok f
    end.

(** The rational number a float stands for (0 for the values that are
    not numbers, which the script never produces). *)
Definition SF2Q (f : spec_float) : Q :=
  match f with
  | S754_finite s m e =>
      match e with
      | Z0 => inject_Z (cond_Zopp s (Z.pos m))
      | Z.pos p => inject_Z (cond_Zopp s (Z.pos m) * 2 ^ Z.pos p)
      | Z.neg p => cond_Zopp s (Z.pos m) # (2 ^ p)%positive
      end
  | _ => 0%Q
  end.


(** ** Dictionaries *)

(** [d[k]]: a missing key raises [KeyError]. *)
Definition getitem {V} (d : gmap ascii V) (k : ascii) : result V :=
  match d !! k with
  | Some v => Ok v
  | None => Raise KeyError
  end.

(** [{k: f(k) for k in keys}], the keys taken in order, a later
    occurrence of a key replacing an earlier one. *)
Fixpoint dict_comprehension_from {V} (d : gmap ascii V) (keys : list ascii)
    (f : ascii → result V) : result (gmap ascii V) :=
  match keys with
  | [] => Ok d
  | k :: keys' => v ← f k; dict_comprehension_from (<[k:=v]> d) keys' f
  end.

Definition dict_comprehension {V} (keys : list ascii) (f : ascii → result V)
    : result (gmap ascii V) :=
  dict_comprehension_from ∅ keys f.

(** [[f(x) for x in xs]]. *)
Fixpoint list_comprehension {A B} (xs : list A) (f : A → result B) : result (list B) :=
  match xs with
  | [] => Ok []
  | x :: xs' => y ← f x; ys ← list_comprehension xs' f; Ok (y :: ys)
  end.

(** ** The statistics calculator *)

Definition calculate_stats (seq : str) : result (gmap ascii pynum * pynum) :=
  let dna_only := join_chars (filter (λ base, base ∈ lit "ACGT") seq) in
  let total := Z.of_nat (length dna_only) in
  counts ← dict_comprehension (lit "ACGT") (λ base, Ok (str_count dna_only base));
  percentages ← dict_comprehension (lit "ACGT") (λ base,
    if total =? 0 then Ok (PyInt 0)
    else c ← getitem counts base; PyFloat <$> int_true_divide (100 * c) total);
  cC ← getitem counts "C"%char;
  cG ← getitem counts "G"%char;
  let cg := cC + cG in
  cg_percent ← (if total =? 0 then Ok (PyInt 0)
                else PyFloat <$> int_true_divide (100 * cg) total);
  Ok (percentages, cg_percent).

(** ** The environment of a run *)

(** The random source.  [randbelow n g] draws an index below [n]; it
    stands for [random._randbelow(n)] and for [floor(random() * n)]. *)
Class RandomSource (G : Type) := {
  randbelow : nat → G → nat * G;
  randbelow_lt : ∀ n g, (0 < n)%nat → (fst (randbelow n g) < n)%nat
}.

(** The built-in conversions the script calls: [int(s)] on a string
    ([None] when it raises [ValueError]) and [format(x, '.1f')]. *)
Class Builtins := {
  int_of_str : str → option Z;
  format_1f : pynum → str
}.

(** The calls made to [matplotlib.pyplot]. *)
Inductive plt_call :=
| plt_bar (x : list ascii) (height : list pynum) (color : list str)
| plt_ylim (bottom top : Z)
| plt_xlabel (label : str)
| plt_ylabel (label : str)
| plt_title (label : str)
| plt_show.

Section Program.
Context {G : Type} `{RandomSource G} `{Builtins}.

(** The state a run acts on: the lines waiting on the console, the text
    written to it, the random source, the files (by path), the exception
    [open(path, 'w')] raises for the paths that cannot be opened, and
    the plotting calls made so far. *)
Record world := {
  stdin : list str;
  stdout : list str;
  rng : G;
  files : gmap str str;
  open_error : str → option exn;
  figure : list plt_call
}.

Definition set_console (i o : list str) (w : world) : world :=
  {| stdin := i; stdout := o; rng := rng w; files := files w;
     open_error := open_error w; figure := figure w |}.

Definition set_rng (g : G) (w : world) : world :=
  {| stdin := stdin w; stdout := stdout w; rng := g; files := files w;
     open_error := open_error w; figure := figure w |}.

Definition set_files (fs : gmap str str) (w : world) : world :=
  {| stdin := stdin w; stdout := stdout w; rng := rng w; files := fs;
     open_error := open_error w; figure := figure w |}.

Definition set_figure (fig : list plt_call) (w : world) : world :=
  {| stdin := stdin w; stdout := stdout w; rng := rng w; files := files w;
     open_error := open_error w; figure := fig |}.

(** Computations that read and change the world and may raise. *)
Definition M (A : Type) : Type := world → result A * world.

Global Instance M_ret : MRet M := λ A a w, (Ok a, w).
Global Instance M_bind : MBind M := λ A B k m w,
  match m w with
  | (Ok a, w') => k a w'
  | (Raise e, w') => (Raise e, w')
  end.

Definition raise {A} (e : exn) : M A := λ w, (Raise e, w).

(** A computation that does not touch the world. *)
Definition pure_result {A} (r : result A) : M A := λ w, (r, w).

(** [print(s)]. *)
Definition print (s : str) : M unit := λ w,
  (Ok tt, set_console (stdin w) (stdout w ++ [s ++ nl]) w).

(** [input(prompt)]: writes the prompt, then reads a line; at the end of
    the input it raises [EOFError]. *)
Definition input (prompt : str) : M str := λ w,
  match stdin w with
  | [] => (Raise EOFError, set_console [] (stdout w ++ [prompt]) w)
  | line :: rest => (Ok line, set_console rest (stdout w ++ [prompt]) w)
  end.

(** [for x in xs: body(x)]. *)
Fixpoint for_each {A} (xs : list A) (body : A → M unit) : M unit :=
  match xs with
  | [] => mret tt
  | x :: xs' => body x;; for_each xs' body
  end.

(** One draw of an index below [n]. *)
Definition random_index (n : nat) : M nat := λ w,
  let (i, g) := randbelow n (rng w) in (Ok i, set_rng g w).

(** [random.choices(population, k=k)] for a [k] from 0 up: [k]
    independent draws; an empty population raises [IndexError].  The script
    calls it with the validated length, which is at least 1, and with 8.
    Below 0 the library is not documented, and a [k] that does not fit a
    machine word makes CPython raise [OverflowError]: for these the model,
    which draws [Z.to_nat k] times, is not to be relied on. *)
Fixpoint choices_loop (population : str) (k : nat) : M (list ascii) :=
  match k with
  | O => mret []
  | S k' =>
      i ← random_index (length population);
      c ← pure_result (match population !! i with
                       | Some c => Ok c
                       | None => Raise IndexError
                       end);
      cs ← choices_loop population k';
      mret (c :: cs)
  end.

Definition random_choices (population : str) (k : Z) : M (list ascii) :=
  choices_loop population (Z.to_nat k).

(** [random.randint(a, b)]: an integer between [a] and [b], both
    included; an empty range raises [ValueError]. *)
Definition random_randint (a b : Z) : M Z :=
  if b + 1 - a <=? 0 then raise ValueError
  else i ← random_index (Z.to_nat (b + 1 - a)); mret (a + Z.of_nat i).

(** [open(path, 'w')] creates or truncates the file; the handle is
    modelled by the path.  [f.write(s)] appends to it.  Two idealisations:
    a file is known by the string it was opened with, so two spellings of
    one path are two keys; and once the file is open, writing to it and
    closing it succeed. *)
Definition open_w (path : str) : M str := λ w,
  match open_error w path with
  | Some e => (Raise e, w)
  | None => (Ok path, set_files (<[path:=[]]> (files w)) w)
  end.

Definition file_write (f : str) (s : str) : M unit := λ w,
  (Ok tt, set_files (<[f:=default [] (files w !! f) ++ s]> (files w)) w).

Definition plt (c : plt_call) : M unit := λ w,
  (Ok tt, set_figure (figure w ++ [c]) w).

(** ** The script *)

Definition generate_dna_sequence (length : Z) : M str :=
  picks ← random_choices (lit "ACGT") length;
  mret (join_chars picks).

Definition insert_name (seq name : str) : M str :=
  pos ← random_randint 0 (Z.of_nat (length seq));
  mret (slice_until seq pos ++ name ++ slice_from seq pos).

Definition save_fasta (file_name seq_id description seq_with_name : str) : M unit :=
  f ← open_w file_name;
  file_write f (lit ">" ++ seq_id ++ lit " " ++ description ++ nl);;
  file_write f (seq_with_name ++ nl).

Definition plot_stats (percentages : gmap ascii pynum) : M unit :=
  let bases := ["A"; "C"; "G"; "T"]%char in
  values ← pure_result (list_comprehension bases (getitem percentages));
  plt (plt_bar bases values [lit "dodgerblue"; lit "orange"; lit "green"; lit "red"]);;
  plt (plt_ylim 0 100);;
  plt (plt_xlabel (lit "Nukleotyd"));;
  plt (plt_ylabel (lit "Procent [%]"));;
  plt (plt_title (lit "Zawartość nukleotydów w sekwencji DNA"));;
  plt plt_show.

Definition generate_random_id (length : Z) : M str :=
  picks ← random_choices (lit "abcdefghijklmnopqrstuvwxyz0123456789") length;
  mret (join_chars picks).

Definition length_prompt : str := lit "Podaj długość sekwencji: ".
Definition not_positive_message : str :=
  lit "Długość nie może być ujemna ani zerowa. Spróbuj ponownie.".
Definition not_integer_message : str := lit "Błąd: musisz podać liczbę całkowitą!".

(** The [while True] loop of [get_valid_length].  Every iteration reads a
    line, so the loop is unfolded once per line waiting on the console;
    [pending] is that list of lines, and [again] is the next iteration.
    When no line is left [input] raises [EOFError], which the loop does
    not catch: the first case of [again] is there for the recursion to be
    structural and is never run. *)
Fixpoint get_valid_length_loop (pending : list str) : M Z :=
  line ← input length_prompt;
  let again :=
    match pending with
    | [] => raise EOFError
    | _ :: pending' => get_valid_length_loop pending'
    end in
  match int_of_str line with
  | Some length =>
      if length <? 1 then print not_positive_message;; again
      else mret length
  | None => print not_integer_message;; again
  end.

Definition get_valid_length : M Z := λ w, get_valid_length_loop (stdin w) w.

Definition main : M unit :=
  length ← get_valid_length;
  seq_id ← input (lit "Podaj ID sekwencji (możesz zostawić puste): ");
  seq_id ← (if negb (str_truthy (strip seq_id)) then
              seq_id ← generate_random_id 8;
              print (lit "Wygenerowano losowy ID: " ++ seq_id);;
              mret seq_id
            else mret seq_id);
  description ← input (lit "Podaj opis sekwencji: ");
  name ← input (lit "Podaj imię: ");
  dna_seq ← generate_dna_sequence length;
  seq_with_name ← insert_name dna_seq name;
  let file_name := seq_id ++ lit ".fasta" in
  save_fasta file_name seq_id description seq_with_name;;
  print (nl ++ lit "Sekwencja została zapisana do pliku " ++ file_name);;
  print (lit "Statystyki sekwencji:");;
  '(percentages, cg_percent) ← pure_result (calculate_stats seq_with_name);
  for_each (lit "ACGT") (λ base,
    p ← pure_result (getitem percentages base);
    print ([base] ++ lit ": " ++ format_1f p ++ lit "%"));;
  print (lit "%CG: " ++ format_1f cg_percent);;
  plot_stats percentages.

End Program.

Arguments world G : clear implicits.
Arguments M G A : clear implicits.

(** ** A concrete environment

    Instances of the two interfaces, so that the script can be run inside
    Rocq. *)

(** A random source that reads raw draws off a list and reduces each
    modulo the bound; an exhausted list keeps giving 0. *)
Definition tape_randbelow (n : nat) (t : list nat) : nat * list nat :=
  match t with
  | [] => (0%nat, [])
  | x :: t' => (x `mod` n, t')%nat
  end.

Global Program Instance tape_source : RandomSource (list nat) :=
  {| randbelow := tape_randbelow |}.
Next Obligation.
  intros n [|x t] Hn; cbn; [exact Hn|]. apply Nat.mod_upper_bound. lia.
Qed.

Definition digit_value (c : ascii) : option Z :=
  let n := nat_of_ascii c in
  if ((48 <=? n) && (n <=? 57))%nat then Some (Z.of_nat n - 48) else None.

(** Decimal digits, single underscores allowed between two digits. *)
Fixpoint parse_digits (acc : Z) (after_digit : bool) (s : str) : option Z :=
  match s with
  | [] => if after_digit then Some acc else None
  | c :: s' =>
      if Ascii.eqb c "_" then
        if after_digit then parse_digits acc false s' else None
      else
        d ← digit_value c; parse_digits (10 * acc + d) true s'
  end.

(** [int(s)] on text written with ASCII digits: surrounding whitespace, an
    optional sign, decimal digits.  (The interpreter's limit on the number
    of digits is left out.) *)
Definition int_of_str_ascii (s : str) : option Z :=
  match strip s with
  | [] => None
  | c :: s' =>
      if Ascii.eqb c "-" then Z.opp <$> parse_digits 0 false s'
      else if Ascii.eqb c "+" then parse_digits 0 false s'
      else parse_digits 0 false (c :: s')
  end.

Definition str_of_Z (z : Z) : str := lit (NilZero.string_of_int (Z.to_int z)).

(** A non-negative rational with one digit after the point, rounded to
    nearest, ties to even. *)
Definition format_1f_Q (x : Q) : str :=
  let n := 10 * Qnum x in
  let d := Z.pos (Qden x) in
  let f := n / d in
  let r := n mod d in
  let t := if (d <? 2 * r) || ((d =? 2 * r) && Z.odd f) then f + 1 else f in
  str_of_Z (t / 10) ++ lit "." ++ str_of_Z (t mod 10).

(** [format(x, '.1f')] for an [int] below 2^53 in magnitude or a [float]. *)
Definition format_1f_num (x : pynum) : str :=
  match x with
  | PyFloat S754_nan => lit "nan"
  | PyFloat (S754_infinity s) => if s then lit "-inf" else lit "inf"
  | PyFloat (S754_zero s) => if s then lit "-0.0" else lit "0.0"
  | PyFloat (S754_finite s m e) =>
      (if s then lit "-" else []) ++ format_1f_Q (SF2Q (S754_finite false m e))
  | PyInt z => (if z <? 0 then lit "-" else []) ++ format_1f_Q (inject_Z (Z.abs z))
  end.

Global Instance ascii_builtins : Builtins :=
  {| int_of_str := int_of_str_ascii; format_1f := format_1f_num |}.

(** A console with three rejected lengths before an accepted one and a
    blank identifier, an existing file, and twenty raw draws. *)
Definition example_world : world (list nat) :=
  {| stdin := [lit "abc"; lit "0"; lit "-3"; lit "5"; lit "  "; lit "opis"; lit "Ala"];
     stdout := [];
     rng := [1; 2; 3; 4; 5; 6; 7; 8; 9; 10; 11; 12; 13; 14; 15; 16; 17; 18; 19; 20]%nat;
     files := {[lit "test1.fasta" := lit "old content"]};
     open_error := λ _, None;
     figure := [] |}.

(** ** Reading a shift record

    [located X D mrs]: the mantissa and the two sticky bits of [mrs]
    describe the position of the fraction [X / D], that is, [X / D] lies in
    [[m, m + 1)] for the mantissa [m], and the bits tell whether it is [m],
    below, at or above [m + 1/2]. *)
Definition located (X D : Z) (mrs : shr_record) : Prop :=
  0 <= shr_m mrs /\
  match shr_r mrs, shr_s mrs with
  | false, false => X = shr_m mrs * D
  | false, true => 0 < 2 * (X - shr_m mrs * D) < D
  | true, false => 2 * (X - shr_m mrs * D) = D
  | true, true => D < 2 * (X - shr_m mrs * D) < 2 * D
  end.


(** ** The statistics in the specification's words *)

(** The characters of the alphabet. *)
Abbreviation is_base := (λ base : ascii, base ∈ lit "ACGT").

(** The dictionary whose keys are the four bases. *)
Definition bases4 {V} (a c g t : V) : gmap ascii V :=
  <["T"%char:=t]> (<["G"%char:=g]> (<["C"%char:=c]> (<["A"%char:=a]> ∅))).

(** [float(z)] for an integer below 2^53 in magnitude. *)
Definition float_of_int (z : Z) : spec_float := binary_normalize prec emax z 0 false.

(** [f] is the float Python computes for [a / b], and it lies within
    2^-47 of the exact quotient. *)
Definition float_quotient (f : spec_float) (a b : Z) : Prop :=
  int_true_divide a b = Ok f /\
  (Qabs (SF2Q f - inject_Z a / inject_Z b) <= 1 # 2 ^ 47)%Q.

(** "percentage = 100 * count / total, or 0 if total == 0". *)
Definition percentage_of (p : pynum) (count total : Z) : Prop :=
  if total =? 0 then p = PyInt 0
  else exists f, p = PyFloat f /\ float_quotient f (100 * count) total.

(** The statistics as a function of the four counts: the filtered
    subset only matters through the number of occurrences of each base,
    and its length is their sum. *)
Definition stats_from_counts (cA cC cG cT : Z) : result (gmap ascii pynum * pynum) :=
  let total := cA + cC + cG + cT in
  let percentage (count : Z) : result pynum :=
    if total =? 0 then Ok (PyInt 0)
    else PyFloat <$> int_true_divide (100 * count) total in
  pA ← percentage cA;
  pC ← percentage cC;
  pG ← percentage cG;
  pT ← percentage cT;
  cg_percent ← percentage (cC + cG);
  Ok (bases4 pA pC pG pT, cg_percent).


(** ** The record format and the console dialogue, in the specification's words *)

(** The two-line record: the header line, then the payload line. *)
Definition fasta_record (seq_id description seq_with_name : str) : str :=
  lit ">" ++ seq_id ++ lit " " ++ description ++ nl ++ seq_with_name ++ nl.

(** A text that fits on one line. *)
Definition no_newline (s : str) : Prop := "010"%char ∉ s.

(** A text without a space. *)
Definition no_space (s : str) : Prop := " "%char ∉ s.

(** Empty or whitespace-only. *)
Definition blank (s : str) : Prop := Forall (λ c, isspace c = true) s.

(** A lowercase letter or a digit. *)
Definition lower_alnum (c : ascii) : bool :=
  let n := nat_of_ascii c in
  ((97 <=? n) && (n <=? 122) || (48 <=? n) && (n <=? 57))%nat.

Section Dialogue.
Context {G : Type} `{RandomSource G} `{Builtins}.

(** A line the length prompt accepts: it parses as an integer that is at
    least 1. *)
Definition accepted_length (line : str) (v : Z) : Prop :=
  int_of_str line = Some v /\ 1 <= v.

(** A line the length prompt rejects: it does not parse, or parses to a
    value below 1. *)
Definition rejected_length (line : str) : Prop :=
  match int_of_str line with
  | Some v => v < 1
  | None => True
  end.

Definition rejection_message (line : str) : str :=
  match int_of_str line with
  | Some _ => not_positive_message
  | None => not_integer_message
  end.

(** What the console shows for a run of rejected lines: the prompt and the
    corrective message, once per line. *)
Definition rejections (lines : list str) : list str :=
  flat_map (λ line, [length_prompt; rejection_message line ++ nl]) lines.

Definition id_prompt : str := lit "Podaj ID sekwencji (możesz zostawić puste): ".

Definition id_report (seq_id : str) : str := lit "Wygenerowano losowy ID: " ++ seq_id.

(** The part of [main] that follows the choice of the identifier. *)
Definition main_after_identifier (length : Z) (seq_id : str) : M G unit :=
  description ← input (lit "Podaj opis sekwencji: ");
  name ← input (lit "Podaj imię: ");
  dna_seq ← generate_dna_sequence length;
  seq_with_name ← insert_name dna_seq name;
  let file_name := seq_id ++ lit ".fasta" in
  save_fasta file_name seq_id description seq_with_name;;
  print (nl ++ lit "Sekwencja została zapisana do pliku " ++ file_name);;
  print (lit "Statystyki sekwencji:");;
  '(percentages, cg_percent) ← pure_result (calculate_stats seq_with_name);
  for_each (lit "ACGT") (λ base,
    p ← pure_result (getitem percentages base);
    print ([base] ++ lit ": " ++ format_1f p ++ lit "%"));;
  print (lit "%CG: " ++ format_1f cg_percent);;
  plot_stats percentages.

(** One line of the printed statistics. *)
Definition percentage_line (base : ascii) (p : pynum) : str :=
  [base] ++ lit ": " ++ format_1f p ++ lit "%" ++ nl.

(** The plotting calls of [plot_stats]. *)
Definition chart (pA pC pG pT : pynum) : list plt_call :=
  [plt_bar ["A"; "C"; "G"; "T"]%char [pA; pC; pG; pT]
     [lit "dodgerblue"; lit "orange"; lit "green"; lit "red"];
   plt_ylim 0 100;
   plt_xlabel (lit "Nukleotyd");
   plt_ylabel (lit "Procent [%]");
   plt_title (lit "Zawartość nukleotydów w sekwencji DNA");
   plt_show].

(** What a complete run of [main] leaves behind, for the identifier
    [seq_id], the description, the name and the requested length. *)
Definition main_report (length : Z) (seq_id description name : str)
    (w0 w' : world G) : Prop :=
  exists (dna_seq : str) (offset : nat) pA pC pG pT cg_percent,
    let seq_with_name := take offset dna_seq ++ name ++ drop offset dna_seq in
    List.length dna_seq = Z.to_nat length /\ Forall is_base dna_seq /\
    (offset <= List.length dna_seq)%nat /\
    calculate_stats seq_with_name = Ok (bases4 pA pC pG pT, cg_percent) /\
    files w' = <[seq_id ++ lit ".fasta" := fasta_record seq_id description seq_with_name]>
                 (files w0) /\
    figure w' = figure w0 ++ chart pA pC pG pT /\
    exists before,
      stdout w' = before ++
        [nl ++ lit "Sekwencja została zapisana do pliku " ++ seq_id ++ lit ".fasta" ++ nl;
         lit "Statystyki sekwencji:" ++ nl;
         percentage_line "A" pA; percentage_line "C" pC;
         percentage_line "G" pG; percentage_line "T" pT;
         lit "%CG: " ++ format_1f cg_percent ++ nl].

End Dialogue.

(** The world [example_world] is in once the length has been read. *)
Definition example_world_after_length : world (list nat) :=
  set_console [lit "  "; lit "opis"; lit "Ala"]
    [length_prompt; not_integer_message ++ nl;
     length_prompt; not_positive_message ++ nl;
     length_prompt; not_positive_message ++ nl;
     length_prompt]
    example_world.

(** A world in which no file can be opened: the length 3, an identifier,
    a description and a name are on the console. *)
Definition closed_world : world (list nat) :=
  {| stdin := [lit "3"; lit "x"; lit "opis"; lit "Ala"]; stdout := [];
     rng := []; files := ∅; open_error := λ _, Some OSError; figure := [] |}.

(** * Properties *)

(** ** The embedding at work *)

(** [100 / 3] is 33.333333333333336, and a tie between two subnormals goes
    to the even one. *)
Example int_true_divide_third :
  int_true_divide 100 3 = Ok (S754_finite false 4691249611844267 (-47)).
Proof. reflexivity. Qed.

Example int_true_divide_tie :
  int_true_divide 3 (2 ^ 1075) = Ok (S754_finite false 2 (-1074)) /\
  int_true_divide 1 (2 ^ 1075) = Ok (S754_zero false).
Proof. split; reflexivity. Qed.

Example int_true_divide_overflow : int_true_divide (2 ^ 1024) 1 = Raise OverflowError.
Proof. reflexivity. Qed.

Example strip_spaces : strip (lit "  ab c ") = lit "ab c".
Proof. reflexivity. Qed.

Example int_of_str_ascii_cases :
  int_of_str_ascii (lit " -1_000 ") = Some (-1000) /\
  int_of_str_ascii (lit "+7") = Some 7 /\
  int_of_str_ascii (lit "12a") = None /\
  int_of_str_ascii (lit "1__2") = None /\
  int_of_str_ascii (lit "") = None.
Proof. repeat split; reflexivity. Qed.

Example format_1f_cases :
  format_1f_num (PyFloat (S754_finite false 4691249611844267 (-47))) = lit "33.3" /\
  format_1f_num (PyFloat (S754_finite false 1 (-2))) = lit "0.2" /\
  format_1f_num (PyFloat (S754_finite false 3 (-2))) = lit "0.8" /\
  format_1f_num (PyInt 0) = lit "0.0".
Proof. repeat split; reflexivity. Qed.

(** A whole run.  The console offers three bad lengths, then 5, a blank
    identifier, a description and the name "Ala".  The draws make the
    identifier "bcdefghi" and the sequence "CGTAC", and put the name at
    offset 2. *)
Example main_on_example_world :
  let (r, w') := main example_world in
  r = Ok tt /\
  stdin w' = [] /\
  files w' !! lit "bcdefghi.fasta"
  = Some (lit ">bcdefghi opis" ++ nl ++ lit "CGAlaTAC" ++ nl) /\
  files w' !! lit "test1.fasta" = Some (lit "old content") /\
  drop 8 (stdout w')
  = [lit "Wygenerowano losowy ID: bcdefghi" ++ nl;
     lit "Podaj opis sekwencji: ";
     lit "Podaj imię: ";
     nl ++ lit "Sekwencja została zapisana do pliku bcdefghi.fasta" ++ nl;
     lit "Statystyki sekwencji:" ++ nl;
     lit "A: 33.3%" ++ nl;
     lit "C: 33.3%" ++ nl;
     lit "G: 16.7%" ++ nl;
     lit "T: 16.7%" ++ nl;
     lit "%CG: 50.0" ++ nl] /\
  length (figure w') = 6%nat.
Proof. vm_compute. repeat split; reflexivity. Qed.

(** With an identifier on the console the file takes its name, and no
    identifier is reported. *)
Example main_with_identifier :
  let (r, w') :=
    main (set_console [lit "3"; lit " seq 1"; lit ""; lit ""] [] example_world) in
  r = Ok tt /\
  files w' !! lit " seq 1.fasta" = Some (lit "> seq 1 " ++ nl ++ lit "CGT" ++ nl) /\
  take 4 (stdout w')
  = [length_prompt; id_prompt; lit "Podaj opis sekwencji: "; lit "Podaj imię: "].
Proof. vm_compute. repeat split; reflexivity. Qed.

(** When the file cannot be opened the run ends there, with the exception
    of [open]. *)
Example main_open_fails :
  let w := {| stdin := [lit "3"; lit "x"; lit ""; lit ""]; stdout := [];
              rng := []; files := ∅; open_error := λ _, Some OSError;
              figure := [] |} in
  fst (main w) = Raise OSError /\ files (snd (main w)) = ∅ /\ figure (snd (main w)) = [].
Proof. vm_compute. repeat split; reflexivity. Qed.

Example calculate_stats_empty_string :
  calculate_stats [] = Ok (bases4 (PyInt 0) (PyInt 0) (PyInt 0) (PyInt 0), PyInt 0).
Proof. reflexivity. Qed.

(** ** Rounding of a quotient of integers

    The float that [int_true_divide] returns for a quotient of at most 100
    is finite and within 2^-47 of the exact quotient.  The proof follows
    the quotient through [SFdiv_core_binary] and the two shifts of
    [binary_round_aux], keeping the invariant [located]. *)

(** A positive number of [d] binary digits lies between [2 ^ (d - 1)]
    and [2 ^ d]. *)
Lemma digits2_pos_bounds (p : positive) :
  2 ^ (Z.pos (digits2_pos p) - 1) <= Z.pos p < 2 ^ Z.pos (digits2_pos p).
Proof.
  induction p as [p IH|p IH|]; simpl digits2_pos; [| |simpl; lia];
    rewrite Pos2Z.inj_succ;
    replace (Z.succ (Z.pos (digits2_pos p)) - 1)
      with (Z.succ (Z.pos (digits2_pos p) - 1)) by lia;
    rewrite !Z.pow_succ_r by lia; lia.
Qed.

(** One shift to the right doubles the scale and keeps the position. *)
Lemma shr_1_located X D mrs :
  0 < D -> located X D mrs -> located X (2 * D) (shr_1 mrs).
Proof.
  intros HD [Hm H]. destruct mrs as [m r s]. unfold located.
  cbn [shr_m shr_r shr_s] in *.
  destruct m as [|[p|p|]|]; destruct r, s; cbn [shr_1 shr_m shr_r shr_s orb] in *; split; lia.
Qed.

Lemma iter_shr_1_located p : forall X D mrs,
  0 < D -> located X D mrs -> located X (D * 2 ^ Z.pos p) (SpecFloat.iter_pos shr_1 p mrs).
Proof.
  induction p as [p IH|p IH|]; intros X D mrs HD H; simpl SpecFloat.iter_pos.
  - replace (D * 2 ^ Z.pos p~1) with (2 * D * 2 ^ Z.pos p * 2 ^ Z.pos p).
    + apply IH; [lia|]. apply IH; [lia|]. now apply shr_1_located.
    + replace (Z.pos p~1) with (Z.pos p + Z.pos p + 1) by lia.
      rewrite !Z.pow_add_r by lia. ring.
  - replace (D * 2 ^ Z.pos p~0) with (D * 2 ^ Z.pos p * 2 ^ Z.pos p).
    + apply IH; [lia|]. apply IH; [lia|]. assumption.
    + replace (Z.pos p~0) with (Z.pos p + Z.pos p) by lia.
      rewrite !Z.pow_add_r by lia. ring.
  - replace (D * 2 ^ 1) with (2 * D) by lia. now apply shr_1_located.
Qed.

Lemma fexp_binary64 e : fexp prec emax e = Z.max (e - 53) (-1074).
Proof. reflexivity. Qed.

Lemma Zdigits2_upper m : 0 <= m -> m < 2 ^ Zdigits2 m.
Proof.
  destruct m as [|p|p]; intros H; [reflexivity| |lia].
  apply digits2_pos_bounds.
Qed.

Lemma Zdigits2_lower m : 0 < m -> 2 ^ (Zdigits2 m - 1) <= m.
Proof.
  destruct m as [|p|p]; intros H; [lia| |lia].
  apply digits2_pos_bounds.
Qed.

Lemma Zdigits2_nonneg m : 0 <= Zdigits2 m.
Proof. destruct m; simpl; lia. Qed.

(** If [m < 2 ^ k] then [m] has at most [k] binary digits. *)
Lemma Zdigits2_le m k : 0 <= k -> 0 <= m < 2 ^ k -> Zdigits2 m <= k.
Proof.
  intros Hk [H0 Hm]. destruct (Z.eq_dec m 0) as [->|Hne]; [simpl; lia|].
  pose proof (Zdigits2_lower m ltac:(lia)) as Hl.
  destruct (Z_le_gt_dec (Zdigits2 m) k) as [|Hgt]; [assumption|exfalso].
  assert (2 ^ k <= 2 ^ (Zdigits2 m - 1)) by (apply Z.pow_le_mono_r; lia).
  lia.
Qed.

(** [shr] by [n] places multiplies the scale by [2 ^ n] and adds [n] to
    the exponent; for [n <= 0] it does nothing. *)
Lemma shr_located X D mrs e n :
  0 < D -> located X D mrs ->
  snd (shr mrs e n) = e + Z.max n 0 /\
  located X (D * 2 ^ Z.max n 0) (fst (shr mrs e n)).
Proof.
  intros HD H. destruct n as [|p|p]; cbn [shr fst snd].
  - rewrite Z.max_id, Z.pow_0_r, Z.add_0_r, Z.mul_1_r. auto.
  - rewrite Z.max_l by lia. split; [reflexivity|]. now apply iter_shr_1_located.
  - rewrite Z.max_r by lia. rewrite Z.pow_0_r, Z.add_0_r, Z.mul_1_r. auto.
Qed.

(** The remainder of a division tells where the exact quotient lies above
    the integer quotient. *)
Lemma new_location_located q b r :
  0 <= q -> 0 <= r < b ->
  located (b * q + r) b (shr_record_of_loc q (new_location b r)).
Proof.
  intros Hq Hr. unfold new_location, new_location_even, new_location_odd.
  destruct (Z.even b) eqn:Hev.
  - destruct (Z.eqb_spec r 0) as [->|Hr0].
    + split; cbn; lia.
    + destruct (Z.compare_spec (2 * r) b); split; cbn; lia.
  - assert (Z.odd b = true) as Hodd by (rewrite <- Z.negb_even, Hev; reflexivity).
    apply Z.odd_spec in Hodd as [h Hh].
    destruct (Z.eqb_spec r 0) as [->|Hr0].
    + split; cbn; lia.
    + destruct (Z.compare_spec (2 * r + 1) b); split; cbn; lia.
Qed.

(** Rounding to nearest picks the mantissa or its successor, at most half
    a unit away from the exact position. *)
Lemma round_nearest_even_located X D mrs :
  0 < D -> located X D mrs ->
  let m1 := round_nearest_even (shr_m mrs) (loc_of_shr_record mrs) in
  shr_m mrs <= m1 <= shr_m mrs + 1 /\ 2 * Z.abs (m1 * D - X) <= D.
Proof.
  intros HD [Hm H]. destruct mrs as [m r s]. cbn [shr_m shr_r shr_s] in *.
  destruct r, s; cbn [loc_of_shr_record round_nearest_even]; try (split; lia).
  destruct (Z.even m); split; lia.
Qed.

(** The division core, on two positive integers with exponent 0: the
    mantissa it returns at the exponent [e] locates [a * 2 ^ (- e) / b]. *)
Lemma SFdiv_core_binary_located a b :
  0 < a -> 0 < b ->
  exists q l,
    let e := Z.min (fexp prec emax (Zdigits2 a - Zdigits2 b)) 0 in
    SFdiv_core_binary prec emax a 0 b 0 = (q, e, l) /\
    located (a * 2 ^ (- e)) b (shr_record_of_loc q l).
Proof.
  intros Ha Hb. unfold SFdiv_core_binary.
  rewrite !Z.add_0_r, Z.sub_diag.
  set (e := Z.min (fexp prec emax (Zdigits2 a - Zdigits2 b)) 0).
  assert (e <= 0) as He by (unfold e; lia).
  set (m' := match 0 - e with Z.pos _ => Z.shiftl a (0 - e) | 0 => a | Z.neg _ => 0 end).
  assert (m' = a * 2 ^ (- e)) as Hm'.
  { unfold m'. rewrite Z.sub_0_l. destruct (- e) as [|p|p] eqn:E; try lia.
    rewrite Z.shiftl_mul_pow2 by lia. reflexivity. }
  pose proof (Z_div_mod m' b ltac:(lia)) as Hdiv.
  destruct (Z.div_eucl m' b) as [q r]. destruct Hdiv as [Heq Hr].
  exists q, (new_location b r). split; [reflexivity|].
  rewrite <- Hm', Heq. apply new_location_located; [|assumption].
  assert (0 <= m') by (rewrite Hm'; lia). nia.
Qed.

(** The mantissa is the integer part of [X / D]. *)
Lemma located_bounds X D mrs :
  0 < D -> located X D mrs -> shr_m mrs * D <= X < (shr_m mrs + 1) * D.
Proof.
  intros HD [Hm H]. destruct (shr_r mrs), (shr_s mrs); lia.
Qed.

Lemma shr_m_of_loc m l : shr_m (shr_record_of_loc m l) = m.
Proof. destruct l as [|[]]; reflexivity. Qed.

Lemma pow2_le_mono (i j : Z) : 0 <= i <= j -> 2 ^ i <= 2 ^ j.
Proof. intros H. apply Z.pow_le_mono_r; lia. Qed.

Lemma pow2_split (i j : Z) : 0 <= i -> 0 <= j -> 2 ^ (i + j) = 2 ^ i * 2 ^ j.
Proof. intros. apply Z.pow_add_r; assumption. Qed.

(** Rounding the quotient of [a] by [b], for [0 < a <= 100 * b]: the
    result is a zero or a finite float [m * 2 ^ (- k)] with [k >= 45];
    [m / 2 ^ k] is within [2 ^ (- 47)] of [a / b], and within half a unit
    of the last place of it (both inequalities are multiplied out by
    [b * 2 ^ k]). *)
Lemma binary_round_aux_quotient_half_unit sgn a b :
  0 < a <= 100 * b ->
  exists q e l m k,
    SFdiv_core_binary prec emax a 0 b 0 = (q, e, l) /\
    0 <= m /\ 45 <= k /\
    (Z.abs (m * b - a * 2 ^ k) * 2 ^ 47 <= b * 2 ^ k /\
     2 * Z.abs (m * b - a * 2 ^ k) <= b) /\
    binary_round_aux prec emax sgn q e l =
      match m with Z.pos p => S754_finite sgn p (- k) | _ => S754_zero sgn end.
Proof.
  intros [Ha Hab]. assert (0 < b) as Hb by lia.
  destruct (SFdiv_core_binary_located a b Ha Hb) as (q & l & Hcore & Hloc).
  set (e := Z.min (fexp prec emax (Zdigits2 a - Zdigits2 b)) 0) in *.
  (* the quotient is below 2^7, so the working exponent is at most -46 *)
  assert (e <= -46) as He.
  { assert (Zdigits2 a <= Zdigits2 b + 7) as Hd.
    { apply Zdigits2_le; [pose proof (Zdigits2_nonneg b); lia|].
      pose proof (Zdigits2_upper b ltac:(lia)) as Hub.
      pose proof (Zdigits2_nonneg b) as Hnb.
      rewrite pow2_split by lia. change (2 ^ 7) with 128. lia. }
    unfold e. rewrite fexp_binary64. lia. }
  set (X := a * 2 ^ (- e)) in *.
  pose proof (located_bounds _ _ _ Hb Hloc) as Hq. rewrite shr_m_of_loc in Hq.
  assert (0 <= q) as Hq0 by (destruct Hloc as [Hm _]; now rewrite shr_m_of_loc in Hm).
  set (dq := Zdigits2 q).
  assert (dq + e <= 7) as Hdq.
  { assert (dq <= 7 - e); [|lia]. apply Zdigits2_le; [lia|]. split; [assumption|].
    replace (7 - e) with (7 + - e) by lia.
    rewrite pow2_split by lia. change (2 ^ 7) with 128.
    assert (0 < 2 ^ (- e)) by (apply Z.pow_pos_nonneg; lia).
    unfold X in Hq. nia. }
  (* first shift *)
  set (n := fexp prec emax (dq + e) - e).
  pose proof (shr_located X b (shr_record_of_loc q l) e n Hb Hloc) as [He1 Hloc1].
  set (n' := Z.max n 0) in *.
  assert (0 <= n') as Hn' by (unfold n'; lia).
  assert (0 < 2 ^ n') as Hpn' by (apply Z.pow_pos_nonneg; lia).
  assert (0 < b * 2 ^ n') as HD1 by lia.
  pose proof (located_bounds _ _ _ HD1 Hloc1) as Hm1.
  pose proof (round_nearest_even_located _ _ _ HD1 Hloc1) as Hrne.
  assert (forall s, binary_round_aux prec emax s q e l =
            let '(mrs', e') := shr (shr_record_of_loc q l) e n in
            let '(mrs'', e'') :=
              shr_fexp prec emax
                (round_nearest_even (shr_m mrs') (loc_of_shr_record mrs')) e' loc_Exact in
            match shr_m mrs'' with
            | 0 => S754_zero s
            | Z.pos m =>
                if e'' <=? emax - prec then S754_finite s m e'' else S754_infinity s
            | Z.neg _ => S754_nan
            end) as Haux by reflexivity.
  destruct (shr (shr_record_of_loc q l) e n) as [mrs1 e1].
  cbn [fst snd] in *. cbv zeta in Hrne. unfold shr_fexp in Haux.
  set (m' := shr_m mrs1) in *.
  set (m1 := round_nearest_even m' (loc_of_shr_record mrs1)) in *.
  destruct Hrne as [Hm1r Herr].
  assert (0 <= m') as Hm'0 by (destruct Hloc1; assumption).
  assert (-1074 <= e1 <= -46) as He1b.
  { unfold n', n in He1. rewrite fexp_binary64 in He1. lia. }
  assert (m' < 2 ^ 53) as Hm'53.
  { assert (m' * 2 ^ n' <= q) as Hle by nia.
    pose proof (Zdigits2_upper q Hq0) as Hu. fold dq in Hu.
    assert (dq <= n' + 53) as Hdn.
    { unfold n', n. rewrite fexp_binary64. lia. }
    assert (2 ^ dq <= 2 ^ (n' + 53)) as Hpw.
    { apply pow2_le_mono. split; [apply Zdigits2_nonneg|assumption]. }
    rewrite pow2_split in Hpw by lia. nia. }
  (* the error of the rounded mantissa, at the exponent [e1] *)
  assert (2 * Z.abs (m1 * b - a * 2 ^ (- e1)) <= b) as Herr1.
  { assert (X = a * 2 ^ (- e1) * 2 ^ n') as HX.
    { unfold X. replace (- e) with (- e1 + n') by lia.
      rewrite pow2_split by lia. ring. }
    rewrite HX in Herr.
    replace (m1 * (b * 2 ^ n') - a * 2 ^ (- e1) * 2 ^ n')
      with ((m1 * b - a * 2 ^ (- e1)) * 2 ^ n') in Herr by ring.
    rewrite Z.abs_mul, (Z.abs_eq (2 ^ n')) in Herr by lia. nia. }
  assert (2 ^ 46 <= 2 ^ (- e1)) as Hp46 by (apply pow2_le_mono; lia).
  destruct (Z.eq_dec m1 (2 ^ 53)) as [Heq|Hne].
  - (* the rounding carried into a 54th bit: one more exact shift *)
    exists q, e, l, (2 ^ 52), (- e1 - 1). split; [exact Hcore|].
    split; [lia|]. split; [lia|]. split.
    + assert (2 ^ (- e1) = 2 * 2 ^ (- e1 - 1)) as Hp.
      { replace (- e1) with (1 + (- e1 - 1)) at 1 by lia. rewrite pow2_split by lia. reflexivity. }
      rewrite Heq, Hp in Herr1. rewrite Hp in Hp46.
      set (t := 2 ^ (- e1 - 1)) in *.
      replace (2 ^ 53 * b - a * (2 * t)) with (2 * (2 ^ 52 * b - a * t)) in Herr1
        by (change (2 ^ 53) with (2 * 2 ^ 52); ring).
      assert (b * 2 ^ 45 <= b * t) by (apply Z.mul_le_mono_nonneg_l; lia).
      split; lia.
    + rewrite Haux. fold m' m1. rewrite Heq. rewrite fexp_binary64.
      change (Zdigits2 (2 ^ 53)) with 54.
      replace (Z.max (54 + e1 - 53) (-1074) - e1) with 1 by lia.
      cbn [shr shr_record_of_loc SpecFloat.iter_pos shr_1 shr_m].
      destruct (Z.leb_spec (e1 + 1) (emax - prec)) as [_|Hgt];
        [|unfold emax, prec in Hgt; lia].
      replace (- (- e1 - 1)) with (e1 + 1) by lia. reflexivity.
  - exists q, e, l, m1, (- e1). split; [exact Hcore|].
    split; [lia|]. split; [lia|]. split.
    + assert (b * 2 ^ 46 <= b * 2 ^ (- e1)) by (apply Z.mul_le_mono_nonneg_l; lia).
      split; lia.
    + assert (Zdigits2 m1 <= 53) as Hd1 by (apply Zdigits2_le; lia).
      rewrite Haux. fold m' m1. rewrite fexp_binary64.
      destruct (Z.max (Zdigits2 m1 + e1 - 53) (-1074) - e1) as [|p|p] eqn:En2;
        [| lia |]; cbn [shr shr_record_of_loc shr_m];
        (destruct m1 as [|p1|p1]; [reflexivity| |lia]);
        (destruct (Z.leb_spec e1 (emax - prec)) as [_|Hgt];
          [|unfold emax, prec in Hgt; lia]);
        rewrite Z.opp_involutive; reflexivity.
Qed.

(** Rounding the quotient of [a] by [b], for [0 < a <= 100 * b]: the
    result is a zero or a finite float [m * 2 ^ (- k)] with [k >= 45], and
    [m / 2 ^ k] is within [2 ^ (- 47)] of [a / b] (the inequality is
    multiplied out by [b * 2 ^ k]). *)
Lemma binary_round_aux_quotient sgn a b :
  0 < a <= 100 * b ->
  exists q e l m k,
    SFdiv_core_binary prec emax a 0 b 0 = (q, e, l) /\
    0 <= m /\ 45 <= k /\
    Z.abs (m * b - a * 2 ^ k) * 2 ^ 47 <= b * 2 ^ k /\
    binary_round_aux prec emax sgn q e l =
      match m with Z.pos p => S754_finite sgn p (- k) | _ => S754_zero sgn end.
Proof.
  intros Hab.
  destruct (binary_round_aux_quotient_half_unit sgn a b Hab)
    as (q & e & l & m & k & Hcore & Hm & Hk & [Hclose _] & Haux).
  exists q, e, l, m, k. auto.
Qed.

(** The same inequality over the rationals. *)
Lemma Qabs_fraction_close (m a : Z) (pk pb : positive) :
  Z.abs (m * Z.pos pb - a * Z.pos pk) * 2 ^ 47 <= Z.pos pb * Z.pos pk ->
  (Qabs ((m # pk) - (a # pb)) <= 1 # 2 ^ 47)%Q.
Proof.
  intros Hclose. apply Qabs_Qle_condition.
  unfold Qle, Qminus, Qplus, Qopp. cbn [Qnum Qden].
  rewrite !Pos2Z.inj_mul. change (Z.pos (2 ^ 47)) with (2 ^ 47).
  split; lia.
Qed.
Lemma SF2Q_quotient (m k a b : Z) :
  0 <= m -> 0 < k -> 0 < b ->
  Z.abs (m * b - a * 2 ^ k) * 2 ^ 47 <= b * 2 ^ k ->
  (Qabs (SF2Q (match m with
                | Z.pos p => S754_finite false p (- k)
                | _ => S754_zero false
                end) - inject_Z a / inject_Z b) <= 1 # 2 ^ 47)%Q.
Proof.
  intros Hm Hk Hb Hclose.
  destruct b as [|pb|pb]; try lia. destruct k as [|pk|pk]; try lia.
  rewrite <- Qmake_Qdiv.
  assert (Z.pos (2 ^ pk) = 2 ^ Z.pos pk) as Hpow by apply Pos2Z.inj_pow.
  destruct m as [|p|p]; try lia.
  - assert (SF2Q (S754_zero false) == 0 # 2 ^ pk)%Q as -> by reflexivity.
    apply Qabs_fraction_close. rewrite Hpow. exact Hclose.
  - cbn [SF2Q Z.opp cond_Zopp].
    apply Qabs_fraction_close. rewrite Hpow. exact Hclose.
Qed.

(** ** The statistics calculator *)

(** True division of a numerator between 0 and 100 times the (positive)
    divisor never raises, and its result is within 2^-47 of the exact
    quotient. *)
Lemma int_true_divide_accurate a b :
  0 <= a <= 100 * b -> 0 < b ->
  exists f, float_quotient f a b.
Proof.
  intros [Ha Hab] Hb. unfold float_quotient, int_true_divide.
  destruct (Z.eqb_spec b 0) as [|_]; [lia|].
  destruct (Z.eqb_spec a 0) as [->|Hne].
  - exists (S754_zero false). split.
    + destruct (Z.ltb_spec b 0); [lia|reflexivity].
    + assert (SF2Q (S754_zero false) - inject_Z 0 / inject_Z b == 0)%Q as ->.
      { unfold Qdiv. rewrite Qmult_0_l. reflexivity. }
      apply Qabs_Qle_condition. split; discriminate.
  - destruct (binary_round_aux_quotient false a b ltac:(lia))
      as (q & e & l & m & k & Hcore & Hm & Hk & Hclose & Haux).
    replace (Z.abs a) with a by lia. replace (Z.abs b) with b by lia.
    rewrite Hcore.
    replace (xorb (a <? 0) (b <? 0)) with false
      by (destruct (Z.ltb_spec a 0), (Z.ltb_spec b 0); (lia || reflexivity)).
    rewrite Haux.
    exists (match m with Z.pos p => S754_finite false p (- k) | _ => S754_zero false end).
    split; [destruct m; reflexivity|].
    apply SF2Q_quotient; (assumption || lia).
Qed.

Lemma int_true_divide_zero_divisor a : int_true_divide a 0 = Raise ZeroDivisionError.
Proof. reflexivity. Qed.

Lemma dict_comprehension_ACGT {V} (f : ascii → V) :
  dict_comprehension (lit "ACGT") (λ base, Ok (f base))
  = Ok (bases4 (f "A"%char) (f "C"%char) (f "G"%char) (f "T"%char)).
Proof. reflexivity. Qed.

Lemma getitem_bases4 {V} (a c g t : V) :
  getitem (bases4 a c g t) "A"%char = Ok a /\
  getitem (bases4 a c g t) "C"%char = Ok c /\
  getitem (bases4 a c g t) "G"%char = Ok g /\
  getitem (bases4 a c g t) "T"%char = Ok t.
Proof. repeat split; reflexivity. Qed.

Lemma lookup_bases4 {V} (a c g t : V) :
  bases4 a c g t !! "A"%char = Some a /\
  bases4 a c g t !! "C"%char = Some c /\
  bases4 a c g t !! "G"%char = Some g /\
  bases4 a c g t !! "T"%char = Some t.
Proof. repeat split; reflexivity. Qed.

Lemma base_cases (c : ascii) :
  c ∈ lit "ACGT" -> c = "A"%char \/ c = "C"%char \/ c = "G"%char \/ c = "T"%char.
Proof.
  intros Hc. cbn in Hc.
  repeat (apply elem_of_cons in Hc as [->|Hc]; [tauto|]).
  apply elem_of_nil in Hc. contradiction.
Qed.

(** *** Counting *)

Lemma str_count_nonneg l c : 0 <= str_count l c.
Proof. unfold str_count. lia. Qed.

Lemma str_count_app s1 s2 c : str_count (s1 ++ s2) c = str_count s1 c + str_count s2 c.
Proof. unfold str_count. rewrite count_occ_app. lia. Qed.

Lemma str_count_other s c x : x <> c -> str_count (x :: s) c = str_count s c.
Proof.
  intros Hne. unfold str_count. cbn.
  destruct (ascii_dec x c); [contradiction|reflexivity].
Qed.

Lemma str_count_take_drop (s : str) n c :
  str_count (take n s) c + str_count (drop n s) c = str_count s c.
Proof. rewrite <- str_count_app, take_drop. reflexivity. Qed.

(** The four counts of a string are not negative. *)
Ltac count_facts s :=
  pose proof (str_count_nonneg s "A"); pose proof (str_count_nonneg s "C");
  pose proof (str_count_nonneg s "G"); pose proof (str_count_nonneg s "T").

(** Four counts that are not negative and add up to zero are zero. *)
Ltac zero_counts s :=
  replace (str_count s "A") with 0 by lia; replace (str_count s "C") with 0 by lia;
  replace (str_count s "G") with 0 by lia; replace (str_count s "T") with 0 by lia.

(** A string over the alphabet is as long as its four counts together. *)
Lemma count_bases (l : list ascii) :
  Forall is_base l ->
  Z.of_nat (length l) =
    str_count l "A" + str_count l "C" + str_count l "G" + str_count l "T".
Proof.
  unfold str_count. induction 1 as [|c l Hc _ IH]; [reflexivity|].
  cbn [length count_occ]. apply base_cases in Hc.
  destruct Hc as [-> | [-> | [-> | ->]]];
    repeat (destruct (ascii_dec _ _) as [?|?]; try discriminate; try congruence);
    lia.
Qed.

Lemma Forall_filter_base (seq : list ascii) : Forall is_base (filter is_base seq).
Proof. apply Forall_forall. intros c Hc. apply list_elem_of_filter in Hc. tauto. Qed.

(** Filtering does not change the count of a base. *)
Lemma str_count_filter_base (seq : list ascii) (c : ascii) :
  c ∈ lit "ACGT" -> str_count (filter is_base seq) c = str_count seq c.
Proof.
  intros Hc. unfold str_count. f_equal.
  induction seq as [|x seq IH]; [reflexivity|].
  rewrite filter_cons. destruct (decide (x ∈ lit "ACGT")) as [Hx|Hx]; cbn [count_occ].
  - rewrite IH. reflexivity.
  - destruct (ascii_dec x c) as [->|_]; [contradiction|exact IH].
Qed.

Lemma filter_base_length (seq : list ascii) :
  Z.of_nat (length (filter is_base seq)) =
    str_count seq "A" + str_count seq "C" + str_count seq "G" + str_count seq "T".
Proof.
  rewrite (count_bases _ (Forall_filter_base seq)).
  rewrite !str_count_filter_base by (cbn; set_solver). reflexivity.
Qed.

(** *** The calculator computes [stats_from_counts] *)

Lemma calculate_stats_from_counts (seq : list ascii) :
  calculate_stats seq =
    stats_from_counts (str_count seq "A") (str_count seq "C")
                      (str_count seq "G") (str_count seq "T").
Proof.
  unfold calculate_stats, join_chars, stats_from_counts.
  rewrite dict_comprehension_ACGT. cbn [mbind result_bind].
  rewrite !str_count_filter_base by (cbn; set_solver).
  rewrite filter_base_length.
  set (total := str_count seq "A" + str_count seq "C" + str_count seq "G" + str_count seq "T").
  unfold dict_comprehension. cbn [lit list_ascii_of_string dict_comprehension_from].
  destruct (getitem_bases4 (str_count seq "A") (str_count seq "C")
              (str_count seq "G") (str_count seq "T")) as (-> & -> & -> & ->).
  destruct (total =? 0); [reflexivity|].
  cbn [mbind result_bind].
  destruct (int_true_divide (100 * str_count seq "A") total); [|reflexivity].
  destruct (int_true_divide (100 * str_count seq "C") total); [|reflexivity].
  destruct (int_true_divide (100 * str_count seq "G") total); [|reflexivity].
  destruct (int_true_divide (100 * str_count seq "T") total); [|reflexivity].
  reflexivity.
Qed.

Lemma stats_from_counts_zero :
  stats_from_counts 0 0 0 0
  = Ok (bases4 (PyInt 0) (PyInt 0) (PyInt 0) (PyInt 0), PyInt 0).
Proof. reflexivity. Qed.

Lemma stats_from_counts_positive cA cC cG cT :
  0 <= cA -> 0 <= cC -> 0 <= cG -> 0 <= cT -> 0 < cA + cC + cG + cT ->
  let total := cA + cC + cG + cT in
  exists fA fC fG fT fCG,
    float_quotient fA (100 * cA) total /\
    float_quotient fC (100 * cC) total /\
    float_quotient fG (100 * cG) total /\
    float_quotient fT (100 * cT) total /\
    float_quotient fCG (100 * (cC + cG)) total /\
    stats_from_counts cA cC cG cT
      = Ok (bases4 (PyFloat fA) (PyFloat fC) (PyFloat fG) (PyFloat fT), PyFloat fCG).
Proof.
  intros HA HC HG HT Hpos total.
  destruct (int_true_divide_accurate (100 * cA) total) as (fA & EA & BA); [lia..|].
  destruct (int_true_divide_accurate (100 * cC) total) as (fC & EC & BC); [lia..|].
  destruct (int_true_divide_accurate (100 * cG) total) as (fG & EG & BG); [lia..|].
  destruct (int_true_divide_accurate (100 * cT) total) as (fT & ET & BT); [lia..|].
  destruct (int_true_divide_accurate (100 * (cC + cG)) total) as (fCG & ECG & BCG); [lia..|].
  exists fA, fC, fG, fT, fCG. unfold float_quotient. repeat (split; [tauto|]).
  unfold stats_from_counts. fold total.
  destruct (Z.eqb_spec total 0) as [|_]; [lia|].
  rewrite EA, EC, EG, ET, ECG. reflexivity.
Qed.

Lemma calculate_stats_empty (seq : str) :
  filter is_base seq = [] ->
  calculate_stats seq = Ok (bases4 (PyInt 0) (PyInt 0) (PyInt 0) (PyInt 0), PyInt 0).
Proof.
  intros Hf. unfold calculate_stats, join_chars. rewrite Hf. reflexivity.
Qed.

(** The calculator returns on every string, with the four bases as keys. *)
Lemma calculate_stats_total (s : str) :
  exists pA pC pG pT cg_percent,
    calculate_stats s = Ok (bases4 pA pC pG pT, cg_percent).
Proof.
  rewrite calculate_stats_from_counts.
  count_facts s.
  destruct (Z.eq_dec (str_count s "A" + str_count s "C" + str_count s "G" + str_count s "T") 0)
    as [Hz|Hnz].
  - zero_counts s. rewrite stats_from_counts_zero. eauto 6.
  - destruct (stats_from_counts_positive (str_count s "A") (str_count s "C")
                (str_count s "G") (str_count s "T"))
      as (fA & fC & fG & fT & fCG & _ & _ & _ & _ & _ & ->); try assumption; [lia|].
    eauto 6.
Qed.

(** *** The percentages add up *)





(** *** The formula *)

Lemma percentage_of_float f count total :
  total <> 0 -> float_quotient f (100 * count) total ->
  percentage_of (PyFloat f) count total.
Proof.
  intros Hne Hf. unfold percentage_of.
  destruct (Z.eqb_spec total 0); [contradiction|]. exists f. auto.
Qed.

(** C5.  On every string [calculate_stats] returns; with [total] the length
    of the alphabet-only subset, the value under each base is
    [100 * count(base) / total] (the integer 0 when [total] is 0), and the
    combined value is [100 * (count(C) + count(G)) / total] (0 when
    [total] is 0).  "Is the quotient" means: is the float Python's true
    division returns, which lies within 2^-47 of the exact quotient.  On
    "AACCGGTT" the values are the floats 25.0 for the four bases and 50.0
    for the combination. *)
Theorem calculate_stats_formula :
  (forall s : str,
     let dna_only := filter is_base s in
     let total := Z.of_nat (length dna_only) in
     exists percentages cg_percent,
       calculate_stats s = Ok (percentages, cg_percent) /\
       (forall base, base ∈ lit "ACGT" ->
          exists p, percentages !! base = Some p /\
                    percentage_of p (str_count dna_only base) total) /\
       percentage_of cg_percent
         (str_count dna_only "C" + str_count dna_only "G") total) /\
  calculate_stats (lit "AACCGGTT")
  = Ok (bases4 (PyFloat (float_of_int 25)) (PyFloat (float_of_int 25))
               (PyFloat (float_of_int 25)) (PyFloat (float_of_int 25)),
        PyFloat (float_of_int 50)) /\
  (SF2Q (float_of_int 25) == 25)%Q /\ (SF2Q (float_of_int 50) == 50)%Q.
Proof.
  split; [|split; [vm_compute; reflexivity|split; reflexivity]].
  intros s dna_only total.
  pose proof (count_bases _ (Forall_filter_base s)) as Hsum.
  fold dna_only in Hsum. fold total in Hsum.
  assert (forall c, c ∈ lit "ACGT" -> str_count dna_only c = str_count s c) as Hc
    by (intros c Hin; now apply str_count_filter_base).
  rewrite calculate_stats_from_counts, <- !Hc by (cbn; set_solver).
  destruct (Z.eq_dec total 0) as [Hz|Hnz].
  - count_facts dna_only. zero_counts dna_only.
    rewrite stats_from_counts_zero. eexists _, _. split; [reflexivity|].
    rewrite Hz. split; [|reflexivity].
    intros base Hb. exists (PyInt 0). split; [|reflexivity].
    apply base_cases in Hb as [-> | [-> | [-> | ->]]]; reflexivity.
  - destruct (stats_from_counts_positive (str_count dna_only "A") (str_count dna_only "C")
                (str_count dna_only "G") (str_count dna_only "T"))
      as (fA & fC & fG & fT & fCG & QA & QC & QG & QT & QCG & ->);
      try apply str_count_nonneg; [unfold total in *; lia|].
    rewrite <- Hsum in *.
    eexists _, _. split; [reflexivity|]. split.
    + intros base Hb.
      apply base_cases in Hb as [-> | [-> | [-> | ->]]];
        (eexists; split; [reflexivity|]); now apply percentage_of_float.
    + now apply percentage_of_float.
Qed.

(** The formula at "AACGxx": A is 50, C and G are 25, T is 0. *)
Lemma calculate_stats_formula_example :
  exists percentages cg_percent,
    calculate_stats (lit "AACGxx") = Ok (percentages, cg_percent) /\
    (forall base, base ∈ lit "ACGT" ->
       exists p, percentages !! base = Some p /\
                 percentage_of p (str_count (filter is_base (lit "AACGxx")) base) 4) /\
    percentage_of cg_percent 2 4.
Proof. exact (proj1 calculate_stats_formula (lit "AACGxx")). Defined.

(** *** No character of the alphabet *)

(** C6.  On a string with no character of the alphabet, [calculate_stats]
    returns the integer 0 for the four bases and for the combination.  It
    does not raise: the division it skips is by zero, and would raise
    [ZeroDivisionError] for every numerator. *)
Theorem calculate_stats_no_bases (s : str) :
  filter is_base s = [] ->
  calculate_stats s = Ok (bases4 (PyInt 0) (PyInt 0) (PyInt 0) (PyInt 0), PyInt 0) /\
  forall count,
    int_true_divide (100 * count) (Z.of_nat (length (filter is_base s)))
    = Raise ZeroDivisionError.
Proof.
  intros Hf. split; [now apply calculate_stats_empty|].
  intros count. rewrite Hf. reflexivity.
Qed.

(** The theorem at "xyz". *)
Lemma calculate_stats_no_bases_xyz :
  filter is_base (lit "xyz") = [] /\
  calculate_stats (lit "xyz")
  = Ok (bases4 (PyInt 0) (PyInt 0) (PyInt 0) (PyInt 0), PyInt 0).
Proof.
  split; [reflexivity|].
  apply (calculate_stats_no_bases (lit "xyz")). reflexivity.
Defined.

(** *** Case *)

(** The values [calculate_stats] returns, in terms of the counts of the
    four bases in its argument. *)
Lemma calculate_stats_values (s : str) :
  let total := str_count s "A" + str_count s "C" + str_count s "G" + str_count s "T" in
  exists percentages cg_percent,
    calculate_stats s = Ok (percentages, cg_percent) /\
    (forall base, base ∈ lit "ACGT" ->
       exists p, percentages !! base = Some p /\ percentage_of p (str_count s base) total) /\
    percentage_of cg_percent (str_count s "C" + str_count s "G") total.
Proof.
  intros total. rewrite calculate_stats_from_counts. count_facts s.
  destruct (Z.eq_dec total 0) as [Hz|Hnz].
  - unfold total in Hz. zero_counts s.
    rewrite stats_from_counts_zero. eexists _, _. split; [reflexivity|].
    unfold total. rewrite Hz. split; [|reflexivity].
    intros base Hb. exists (PyInt 0). split; [|reflexivity].
    apply base_cases in Hb as [-> | [-> | [-> | ->]]]; reflexivity.
  - destruct (stats_from_counts_positive (str_count s "A") (str_count s "C")
                (str_count s "G") (str_count s "T"))
      as (fA & fC & fG & fT & fCG & QA & QC & QG & QT & QCG & ->);
      try assumption; [unfold total in *; lia|].
    fold total in QA, QC, QG, QT, QCG.
    eexists _, _. split; [reflexivity|]. split.
    + intros base Hb.
      apply base_cases in Hb as [-> | [-> | [-> | ->]]];
        (eexists; split; [reflexivity|]); now apply percentage_of_float.
    + now apply percentage_of_float.
Qed.

(** A string of lowercase a, c, g and t holds no base. *)
Lemma filter_base_lowercase (s : str) :
  Forall (λ c, c ∈ lit "acgt") s -> filter is_base s = [].
Proof.
  induction 1 as [|c s Hc _ IH]; [reflexivity|].
  rewrite filter_cons_False; [exact IH|].
  cbn in Hc. repeat (apply elem_of_cons in Hc as [->|Hc];
    [intros Hin; apply base_cases in Hin as [? | [? | [? | ?]]]; discriminate|]).
  apply elem_of_nil in Hc. contradiction.
Qed.

(** C10.  The membership test is on the exact characters.  Removing a
    lowercase a, c, g or t from anywhere in the string leaves the
    statistics as they are, and a string of such characters only has the
    statistics of the empty string: they enter neither a count nor the
    denominator.  The statistics of a sequence with a name spliced in are
    those of the sequence followed by the uppercase A, C, G and T of the
    name; the value stored under each base is the percentage of the count
    in the sequence plus the count in the name, over the number of bases
    of the sequence plus the number of those in the name, so these count
    like the bases of the sequence.  The name "Ala" spliced into "CG", at
    any offset, changes the statistics: the values become 33.3... for A, C
    and G, 0.0 for T and 66.6... for C+G, from 0.0, 50.0, 50.0, 0.0 and
    100.0; its uppercase A is counted, its lowercase l and a are not. *)
Theorem stats_case_sensitive :
  (forall (c : ascii) (s1 s2 : str),
     c ∈ lit "acgt" -> calculate_stats (s1 ++ c :: s2) = calculate_stats (s1 ++ s2)) /\
  (forall (seq name : str) (pos : Z),
     calculate_stats (slice_until seq pos ++ name ++ slice_from seq pos)
     = calculate_stats (seq ++ filter is_base name)) /\
  (forall pos : Z,
     calculate_stats (slice_until (lit "CG") pos ++ lit "Ala" ++ slice_from (lit "CG") pos)
     <> calculate_stats (lit "CG")) /\
  (forall s : str,
     Forall (λ c, c ∈ lit "acgt") s ->
     calculate_stats s = Ok (bases4 (PyInt 0) (PyInt 0) (PyInt 0) (PyInt 0), PyInt 0)) /\
  (forall (seq name : str) (pos : Z),
     let count (base : ascii) := str_count seq base + str_count name base in
     let total := Z.of_nat (length (filter is_base seq))
                  + Z.of_nat (length (filter is_base name)) in
     exists percentages cg_percent,
       calculate_stats (slice_until seq pos ++ name ++ slice_from seq pos)
       = Ok (percentages, cg_percent) /\
       (forall base, base ∈ lit "ACGT" ->
          exists p, percentages !! base = Some p /\ percentage_of p (count base) total) /\
       percentage_of cg_percent (count "C"%char + count "G"%char) total) /\
  (forall pos : Z,
     calculate_stats (slice_until (lit "CG") pos ++ lit "Ala" ++ slice_from (lit "CG") pos)
     = Ok (bases4 (PyFloat (S754_finite false 4691249611844267 (-47)))
                  (PyFloat (S754_finite false 4691249611844267 (-47)))
                  (PyFloat (S754_finite false 4691249611844267 (-47)))
                  (PyFloat (S754_zero false)),
           PyFloat (S754_finite false 4691249611844267 (-46)))) /\
  calculate_stats (lit "CG")
  = Ok (bases4 (PyFloat (S754_zero false)) (PyFloat (float_of_int 50))
               (PyFloat (float_of_int 50)) (PyFloat (S754_zero false)),
        PyFloat (float_of_int 100)).
Proof.
  assert (forall (seq name : str) (pos : Z) (c : ascii),
            str_count (slice_until seq pos ++ name ++ slice_from seq pos) c
            = str_count seq c + str_count name c) as Hsplice.
  { intros seq name pos c. unfold slice_until, slice_from.
    rewrite !str_count_app, <- (str_count_take_drop seq (slice_index seq pos) c). lia. }
  split; [|split; [|split; [|split; [|split; [|split]]]]].
  - intros c s1 s2 Hc.
    rewrite !calculate_stats_from_counts, !str_count_app.
    cbn in Hc. repeat (apply elem_of_cons in Hc as [->|Hc];
      [rewrite !str_count_other by discriminate; reflexivity|]).
    apply elem_of_nil in Hc. contradiction.
  - intros seq name pos.
    rewrite !calculate_stats_from_counts, !Hsplice, !str_count_app.
    rewrite !str_count_filter_base by (cbn; set_solver). reflexivity.
  - intros pos. rewrite !calculate_stats_from_counts, !Hsplice.
    vm_compute. discriminate.
  - intros s Hs. apply calculate_stats_empty. now apply filter_base_lowercase.
  - intros seq name pos count total.
    destruct (calculate_stats_values (slice_until seq pos ++ name ++ slice_from seq pos))
      as (percentages & cg_percent & Hrun & Hvalues & Hcg).
    rewrite !Hsplice in Hvalues, Hcg.
    replace (str_count seq "A" + str_count name "A" + (str_count seq "C" + str_count name "C")
             + (str_count seq "G" + str_count name "G")
             + (str_count seq "T" + str_count name "T")) with total in Hvalues, Hcg
      by (unfold total; rewrite !filter_base_length; lia).
    exists percentages, cg_percent. split; [exact Hrun|]. split; [|exact Hcg].
    intros base Hb. destruct (Hvalues base Hb) as (p & Hp & Hof). exists p.
    split; [exact Hp|]. unfold count. rewrite Hsplice in Hof. exact Hof.
  - intros pos. rewrite !calculate_stats_from_counts, !Hsplice.
    vm_compute. reflexivity.
  - vm_compute. reflexivity.
Qed.

(** The first part of the theorem at "ACgT". *)
Lemma stats_case_sensitive_example :
  "g"%char ∈ lit "acgt" /\
  calculate_stats (lit "ACgT") = calculate_stats (lit "ACT").
Proof.
  assert ("g"%char ∈ lit "acgt") as Hg
    by (refine (bool_decide_unpack _ _); vm_compute; exact I).
  split; [exact Hg|].
  exact (proj1 stats_case_sensitive "g"%char (lit "AC") (lit "T") Hg).
Defined.

(** ** Running the script *)

Section Runs.
Context {G : Type} `{RandomSource G} `{Builtins}.
Implicit Types (w : world G) (g : G).

(** *** One step at a time *)

Lemma bind_run {A B} (m : M G A) (k : A → M G B) w :
  (m ≫= k) w = match m w with
               | (Ok a, w') => k a w'
               | (Raise e, w') => (Raise e, w')
               end.
Proof. reflexivity. Qed.

Lemma set_rng_twice g g' w : set_rng g' (set_rng g w) = set_rng g' w.
Proof. reflexivity. Qed.

Lemma set_console_twice i o i' o' w :
  set_console i' o' (set_console i o w) = set_console i' o' w.
Proof. reflexivity. Qed.

Lemma print_run (s : str) w :
  print s w = (Ok tt, set_console (stdin w) (stdout w ++ [s ++ nl]) w).
Proof. reflexivity. Qed.

Lemma print_then {A} (s : str) (k : M G A) w :
  (print s;; k) w = k (set_console (stdin w) (stdout w ++ [s ++ nl]) w).
Proof. reflexivity. Qed.

Lemma plt_then {A} (c : plt_call) (k : M G A) w :
  (plt c;; k) w = k (set_figure (figure w ++ [c]) w).
Proof. reflexivity. Qed.

Lemma input_run prompt line rest w :
  stdin w = line :: rest ->
  input prompt w = (Ok line, set_console rest (stdout w ++ [prompt]) w).
Proof. intros Hin. unfold input. rewrite Hin. reflexivity. Qed.

Lemma input_eof prompt w :
  stdin w = [] ->
  input prompt w = (Raise EOFError, set_console [] (stdout w ++ [prompt]) w).
Proof. intros Hin. unfold input. rewrite Hin. reflexivity. Qed.

(** *** The random draws *)

Lemma random_index_run n w :
  (0 < n)%nat ->
  exists i g, (i < n)%nat /\ random_index n w = (Ok i, set_rng g w).
Proof.
  intros Hn. unfold random_index.
  pose proof (randbelow_lt n (rng w) Hn) as Hlt.
  destruct (randbelow n (rng w)) as [i g]. exists i, g. auto.
Qed.

(** [k] draws from a non-empty population give [k] of its characters, and
    only the random source changes. *)
Lemma choices_loop_run (population : str) (k : nat) w :
  population <> [] ->
  exists cs g,
    choices_loop population k w = (Ok cs, set_rng g w) /\
    length cs = k /\ Forall (λ c, c ∈ population) cs.
Proof.
  intros Hne. revert w. induction k as [|k IH]; intros w.
  - exists [], (rng w). destruct w; repeat split. constructor.
  - assert (0 < length population)%nat as Hlen
      by (destruct population; [contradiction|cbn; lia]).
    destruct (random_index_run _ w Hlen) as (i & g & Hi & Hrun).
    destruct (lookup_lt_is_Some_2 population i Hi) as [c Hc].
    destruct (IH (set_rng g w)) as (cs & g' & Hrest & Hcs & Hall).
    exists (c :: cs), g'. split; [|split].
    + cbn [choices_loop]. rewrite bind_run, Hrun, bind_run.
      unfold pure_result. rewrite Hc, bind_run, Hrest. reflexivity.
    + cbn. lia.
    + constructor; [|assumption]. eapply list_elem_of_lookup_2. eassumption.
Qed.

Lemma generate_dna_sequence_run (length : Z) w :
  exists seq g,
    generate_dna_sequence length w = (Ok seq, set_rng g w) /\
    List.length seq = Z.to_nat length /\ Forall is_base seq.
Proof.
  destruct (choices_loop_run (lit "ACGT") (Z.to_nat length) w)
    as (cs & g & Hrun & Hlen & Hall); [discriminate|].
  exists cs, g. split; [|split; assumption].
  unfold generate_dna_sequence, random_choices. rewrite bind_run, Hrun. reflexivity.
Qed.

(** C7.  For a length of at least 1, [generate_dna_sequence] returns a
    string of exactly that many characters, each of them A, C, G or T;
    of the world it changes the random source only. *)
Theorem generate_dna_sequence_length_alphabet (L : Z) w :
  1 <= L ->
  exists seq g,
    generate_dna_sequence L w = (Ok seq, set_rng g w) /\
    Z.of_nat (length seq) = L /\
    Forall is_base seq.
Proof.
  intros HL.
  destruct (generate_dna_sequence_run L w) as (seq & g & Hrun & Hlen & Hall).
  exists seq, g. split; [exact Hrun|]. split; [lia|exact Hall].
Qed.

Lemma slice_index_nonneg (s : str) (i : Z) : 0 <= i -> slice_index s i = Z.to_nat i.
Proof. intros Hi. unfold slice_index. destruct (Z.ltb_spec i 0); [lia|reflexivity]. Qed.

(** [insert_name] splices the name in at an offset between 0 and the
    length of the sequence. *)
Lemma insert_name_run (seq name : str) w :
  exists (i : nat) g,
    (i <= length seq)%nat /\
    insert_name seq name w
    = (Ok (slice_until seq (Z.of_nat i) ++ name ++ slice_from seq (Z.of_nat i)),
       set_rng g w).
Proof.
  unfold insert_name, random_randint.
  destruct (Z.leb_spec (Z.of_nat (length seq) + 1 - 0) 0) as [Hle|Hgt]; [lia|].
  destruct (random_index_run (Z.to_nat (Z.of_nat (length seq) + 1 - 0)) w ltac:(lia))
    as (i & g & Hi & Hrun).
  exists i, g. split; [lia|].
  rewrite !bind_run, Hrun. reflexivity.
Qed.

(** C2.  [insert_name s n] returns a string [result] for which there is an
    offset between 0 and [len(s)], both included, with
    [result = s[:offset] + n + s[offset:]].  Its length is
    [len(s) + len(n)]; cutting the [len(n)] characters at the offset out of
    it gives [s] back; and for an empty [n] it is [s]. *)
Theorem insert_name_splices (s n : str) w :
  exists (offset : Z) (result : str) g,
    insert_name s n w = (Ok result, set_rng g w) /\
    0 <= offset <= Z.of_nat (length s) /\
    result = slice_until s offset ++ n ++ slice_from s offset /\
    length result = (length s + length n)%nat /\
    slice_until result offset ++ slice_from result (offset + Z.of_nat (length n)) = s /\
    (n = [] -> result = s).
Proof.
  destruct (insert_name_run s n w) as (i & g & Hi & Hrun).
  exists (Z.of_nat i), (slice_until s (Z.of_nat i) ++ n ++ slice_from s (Z.of_nat i)), g.
  split; [exact Hrun|]. split; [lia|]. split; [reflexivity|].
  unfold slice_until, slice_from. rewrite !slice_index_nonneg by lia.
  replace (Z.to_nat (Z.of_nat i)) with i by lia.
  replace (Z.to_nat (Z.of_nat i + Z.of_nat (length n))) with (i + length n)%nat by lia.
  assert (length (take i s) = i) as Htake by (rewrite length_take; lia).
  split; [|split].
  - rewrite !length_app, Htake, length_drop. lia.
  - rewrite take_app_length' by (symmetry; exact Htake).
    rewrite (assoc_L (++)).
    rewrite drop_app_length' by (rewrite length_app; lia).
    apply take_drop.
  - intros ->. cbn. apply take_drop.
Qed.

Lemma generate_random_id_run w :
  exists seq_id g,
    generate_random_id 8 w = (Ok seq_id, set_rng g w) /\
    length seq_id = 8%nat /\ Forall (λ c, lower_alnum c = true) seq_id.
Proof.
  destruct (choices_loop_run (lit "abcdefghijklmnopqrstuvwxyz0123456789") (Z.to_nat 8) w)
    as (cs & g & Hrun & Hlen & Hall); [discriminate|].
  exists cs, g. split; [|split].
  - unfold generate_random_id, random_choices. rewrite bind_run, Hrun. reflexivity.
  - exact Hlen.
  - eapply Forall_impl; [exact Hall|]. cbn beta. intros c Hc.
    assert (forallb lower_alnum (lit "abcdefghijklmnopqrstuvwxyz0123456789") = true) as Hfa
      by reflexivity.
    rewrite forallb_forall in Hfa. apply Hfa. now apply list_elem_of_In.
Qed.

(** *** The record writer *)

Lemma split_lines_no_newline (s t : str) :
  no_newline s -> split_lines (s ++ nl ++ t) = s :: split_lines t.
Proof.
  unfold no_newline. induction s as [|c s IH]; intros Hs; [reflexivity|].
  apply not_elem_of_cons in Hs as [Hc Hs].
  cbn [app split_lines]. destruct (Ascii.eqb_spec c "010") as [->|_]; [contradiction|].
  cbn [app] in IH. rewrite IH by assumption. reflexivity.
Qed.

Lemma no_newline_app (s t : str) : no_newline s -> no_newline t -> no_newline (s ++ t).
Proof. unfold no_newline. intros Hs Ht Hin. apply elem_of_app in Hin. tauto. Qed.

Lemma split_lines_fasta_record (seq_id description seq_with_name : str) :
  no_newline seq_id -> no_newline description ->
  exists rest,
    split_lines (fasta_record seq_id description seq_with_name)
    = (lit ">" ++ seq_id ++ lit " " ++ description) :: rest /\
    (no_newline seq_with_name -> rest = [seq_with_name; []]).
Proof.
  intros Hid Hdesc. unfold fasta_record.
  replace (lit ">" ++ seq_id ++ lit " " ++ description ++ nl ++ seq_with_name ++ nl)
    with ((lit ">" ++ seq_id ++ lit " " ++ description) ++ nl ++ seq_with_name ++ nl ++ [])
    by (rewrite <- !(assoc_L (++)), app_nil_r; reflexivity).
  rewrite split_lines_no_newline.
  - eexists. split; [reflexivity|]. intros Hseq.
    rewrite split_lines_no_newline by assumption. reflexivity.
  - repeat apply no_newline_app; try assumption;
      (apply not_elem_of_cons; split; [discriminate|apply not_elem_of_nil]).
Qed.

(** When the path can be opened, [save_fasta] leaves exactly the record
    under it, whatever was there before, and touches nothing else. *)
Lemma save_fasta_run (file_name seq_id description seq_with_name : str) w :
  open_error w file_name = None ->
  save_fasta file_name seq_id description seq_with_name w
  = (Ok tt, set_files (<[file_name:=fasta_record seq_id description seq_with_name]> (files w)) w).
Proof.
  intros Hopen. unfold save_fasta, fasta_record.
  rewrite bind_run. unfold open_w. rewrite Hopen.
  rewrite bind_run. unfold file_write. cbn [files set_files].
  rewrite lookup_insert_eq. cbn [default].
  rewrite lookup_insert_eq. cbn [default].
  rewrite !insert_insert_eq. unfold id. rewrite app_nil_l, <- !app_assoc. reflexivity.
Qed.

(** When it cannot, the exception of [open] reaches the caller and no file
    changes. *)
Lemma save_fasta_open_fails (file_name seq_id description seq_with_name : str) w e :
  open_error w file_name = Some e ->
  save_fasta file_name seq_id description seq_with_name w = (Raise e, w).
Proof.
  intros Hopen. unfold save_fasta. rewrite bind_run. unfold open_w. rewrite Hopen.
  reflexivity.
Qed.

(** C3.  When the path can be opened for writing, [save_fasta] returns and
    the file under the path then holds the header line
    [>identifier description] and the payload line, each ended by a line
    break, and nothing else: what the file held before is gone, and the
    rest of the world is as it was.  For an identifier, a description and
    a payload without line breaks these are the two lines of the file.
    For "test1", "demo" and "ACGTname123" the first line is ">test1 demo"
    and the second "ACGTname123". *)
Theorem save_fasta_writes_record (file_name : str) w :
  open_error w file_name = None ->
  (forall seq_id description seq_with_name : str,
     save_fasta file_name seq_id description seq_with_name w
     = (Ok tt,
        set_files
          (<[file_name :=
               lit ">" ++ seq_id ++ lit " " ++ description ++ nl ++ seq_with_name ++ nl]>
             (files w)) w) /\
     (no_newline seq_id -> no_newline description -> no_newline seq_with_name ->
      split_lines
        (lit ">" ++ seq_id ++ lit " " ++ description ++ nl ++ seq_with_name ++ nl)
      = [lit ">" ++ seq_id ++ lit " " ++ description; seq_with_name; []])) /\
  (exists w' text,
     save_fasta file_name (lit "test1") (lit "demo") (lit "ACGTname123") w = (Ok tt, w') /\
     files w' !! file_name = Some text /\
     split_lines text = [lit ">test1 demo"; lit "ACGTname123"; []]).
Proof.
  intros Hopen. split.
  - intros seq_id description seq_with_name.
    split; [now apply save_fasta_run|].
    intros Hid Hdesc Hseq.
    destruct (split_lines_fasta_record seq_id description seq_with_name Hid Hdesc)
      as (rest & Hsplit & Hrest).
    unfold fasta_record in Hsplit. rewrite Hsplit, (Hrest Hseq). reflexivity.
  - eexists _, _. split; [now apply save_fasta_run|].
    cbn [files set_files]. rewrite lookup_insert_eq. split; reflexivity.
Qed.

(** C4, as the code has it.  When the path can be opened for writing, the
    text [save_fasta] leaves in the file begins with the marker [>], then
    the identifier with nothing in between, then one space, the
    description and a line break: the first line has the format
    marker, identifier, space, description.  (A line is what [split_lines]
    gives, so the last part asks for an identifier and a description that
    hold no line break.) *)
Theorem save_fasta_header_format (file_name seq_id description seq_with_name : str) w :
  open_error w file_name = None ->
  exists w' text,
    save_fasta file_name seq_id description seq_with_name w = (Ok tt, w') /\
    files w' !! file_name = Some text /\
    text = (lit ">" ++ seq_id ++ lit " " ++ description) ++ nl ++ seq_with_name ++ nl /\
    (no_newline seq_id -> no_newline description ->
     head (split_lines text) = Some (lit ">" ++ seq_id ++ lit " " ++ description)).
Proof.
  intros Hopen. eexists _, _. split; [now apply save_fasta_run|].
  cbn [files set_files]. rewrite lookup_insert_eq. split; [reflexivity|].
  split; [unfold fasta_record; rewrite <- !app_assoc; reflexivity|].
  intros Hid Hdesc.
  destruct (split_lines_fasta_record seq_id description seq_with_name Hid Hdesc)
    as (rest & -> & _).
  reflexivity.
Qed.

(** *** The length prompt *)

Lemma length_line_cases (line : str) :
  (exists v, accepted_length line v) \/ rejected_length line.
Proof.
  unfold accepted_length, rejected_length. destruct (int_of_str line) as [v|]; [|tauto].
  destruct (Z.lt_ge_cases v 1); [tauto|]. left. exists v. split; [reflexivity|lia].
Qed.

(** An accepted line ends the loop. *)
Lemma get_valid_length_loop_accepts line rest v w :
  stdin w = line :: rest -> accepted_length line v ->
  get_valid_length_loop (line :: rest) w
  = (Ok v, set_console rest (stdout w ++ [length_prompt]) w).
Proof.
  intros Hin [Hparse Hv]. cbn [get_valid_length_loop].
  rewrite bind_run, (input_run _ _ _ _ Hin), Hparse.
  destruct (Z.ltb_spec v 1); [lia|reflexivity].
Qed.

(** A rejected line prints its message and the loop goes round again. *)
Lemma get_valid_length_loop_rejects line rest w :
  stdin w = line :: rest -> rejected_length line ->
  get_valid_length_loop (line :: rest) w
  = get_valid_length_loop rest
      (set_console rest (stdout w ++ [length_prompt; rejection_message line ++ nl]) w).
Proof.
  intros Hin Hrej. cbn [get_valid_length_loop].
  rewrite bind_run, (input_run _ _ _ _ Hin).
  unfold rejected_length, rejection_message in *.
  assert (forall (msg : str) (k : M G Z),
            (print msg;; k) (set_console rest (stdout w ++ [length_prompt]) w)
            = k (set_console rest (stdout w ++ [length_prompt; msg ++ nl]) w)) as Hprint.
  { intros msg k. rewrite print_then. cbn [stdin stdout set_console].
    rewrite set_console_twice, <- app_assoc. reflexivity. }
  destruct (int_of_str line) as [v|].
  - destruct (Z.ltb_spec v 1); [|lia]. rewrite Hprint. destruct rest; reflexivity.
  - rewrite Hprint. destruct rest; reflexivity.
Qed.

Lemma get_valid_length_loop_retries bad : forall good rest v w,
  stdin w = bad ++ good :: rest -> Forall rejected_length bad -> accepted_length good v ->
  get_valid_length_loop (stdin w) w
  = (Ok v, set_console rest (stdout w ++ rejections bad ++ [length_prompt]) w).
Proof.
  induction bad as [|line bad IH]; intros good rest v w Hin Hbad Hgood; rewrite Hin.
  - now apply get_valid_length_loop_accepts.
  - apply Forall_cons in Hbad as [Hline Hbad].
    cbn [app] in *. rewrite (get_valid_length_loop_rejects _ _ _ Hin Hline).
    specialize (IH good rest v
      (set_console (bad ++ good :: rest)
         (stdout w ++ [length_prompt; rejection_message line ++ nl]) w)
      eq_refl Hbad Hgood).
    cbn [stdin stdout set_console] in IH. rewrite IH, set_console_twice.
    cbn [rejections flat_map app]. rewrite <- !app_assoc. reflexivity.
Qed.

(** The two ways the loop ends: on the first accepted line, or, when every
    line is rejected, on the end of the input. *)
Lemma get_valid_length_loop_outcome lines : forall w,
  stdin w = lines ->
  (exists bad good rest v,
     lines = bad ++ good :: rest /\ Forall rejected_length bad /\ accepted_length good v /\
     get_valid_length_loop lines w
     = (Ok v, set_console rest (stdout w ++ rejections bad ++ [length_prompt]) w)) \/
  (Forall rejected_length lines /\
   get_valid_length_loop lines w
   = (Raise EOFError, set_console [] (stdout w ++ rejections lines ++ [length_prompt]) w)).
Proof.
  induction lines as [|line lines IH]; intros w Hin.
  - right. split; [constructor|]. cbn [get_valid_length_loop].
    rewrite bind_run, (input_eof _ _ Hin). reflexivity.
  - destruct (length_line_cases line) as [[v Hacc]|Hrej].
    + left. exists [], line, lines, v. repeat split; try apply Hacc; [constructor|].
      now apply get_valid_length_loop_accepts.
    + rewrite (get_valid_length_loop_rejects _ _ _ Hin Hrej).
      destruct (IH (set_console lines
                      (stdout w ++ [length_prompt; rejection_message line ++ nl]) w)
                  eq_refl)
        as [(bad & good & rest & v & -> & Hbad & Hgood & Hrun)|[Hall Hrun]];
        rewrite Hrun, set_console_twice; cbn [stdin stdout set_console].
      * left. exists (line :: bad), good, rest, v.
        repeat split; try apply Hgood; [constructor; assumption|].
        cbn [rejections flat_map app]. rewrite <- !app_assoc. reflexivity.
      * right. split; [constructor; assumption|].
        cbn [rejections flat_map app]. rewrite <- !app_assoc. reflexivity.
Qed.

(** No line is both accepted and rejected. *)
Lemma accepted_not_rejected (line : str) (v : Z) :
  accepted_length line v -> rejected_length line -> False.
Proof. unfold accepted_length, rejected_length. intros [-> Hv]. lia. Qed.

(** When every line is rejected the loop ends on the end of the input. *)
Lemma get_valid_length_loop_eof lines w :
  stdin w = lines -> Forall rejected_length lines ->
  get_valid_length_loop lines w
  = (Raise EOFError, set_console [] (stdout w ++ rejections lines ++ [length_prompt]) w).
Proof.
  intros Hin Hall.
  destruct (get_valid_length_loop_outcome lines w Hin)
    as [(bad & good & rest & v & -> & _ & Hgood & _)|[_ Hrun]]; [|exact Hrun].
  exfalso. apply (accepted_not_rejected good v Hgood).
  apply Forall_app in Hall as [_ Hall]. now apply Forall_cons in Hall as [Hrej _].
Qed.

(** C8.  [get_valid_length] on the lines waiting on the console.  If a run
    of rejected lines (not an integer, or an integer below 1) is followed
    by an accepted line, it prompts once per line, prints the corrective
    message after each rejected one, and returns the value of the
    accepted line, leaving the lines after it unread.  It returns in no
    other way: a returned value is the value of the first accepted line.
    No rejected line makes it raise, but it can raise: when the console
    ends after nothing but rejected lines, and only then, the [EOFError]
    of [input] leaves the loop, after every one of the lines has been
    answered with its message and a new prompt. *)
Theorem get_valid_length_retries w :
  (forall bad good rest v,
     stdin w = bad ++ good :: rest -> Forall rejected_length bad -> accepted_length good v ->
     get_valid_length w
     = (Ok v, set_console rest (stdout w ++ rejections bad ++ [length_prompt]) w)) /\
  (forall v w',
     get_valid_length w = (Ok v, w') ->
     exists bad good,
       stdin w = bad ++ good :: stdin w' /\ Forall rejected_length bad /\
       accepted_length good v) /\
  (forall e w',
     get_valid_length w = (Raise e, w') ->
     e = EOFError /\ Forall rejected_length (stdin w) /\ stdin w' = []) /\
  (Forall rejected_length (stdin w) ->
   get_valid_length w
   = (Raise EOFError,
      set_console [] (stdout w ++ rejections (stdin w) ++ [length_prompt]) w)).
Proof.
  unfold get_valid_length. split; [|split; [|split]].
  - intros bad good rest v. apply get_valid_length_loop_retries.
  - intros v w' Hrun.
    destruct (get_valid_length_loop_outcome (stdin w) w eq_refl)
      as [(bad & good & rest & v' & Hin & Hbad & Hgood & Hrun')|[_ Hrun']];
      rewrite Hrun' in Hrun; [|discriminate].
    injection Hrun as <- <-. exists bad, good. auto.
  - intros e w' Hrun.
    destruct (get_valid_length_loop_outcome (stdin w) w eq_refl)
      as [(bad & good & rest & v' & Hin & Hbad & Hgood & Hrun')|[Hall Hrun']];
      rewrite Hrun' in Hrun; [discriminate|].
    injection Hrun as <- <-. auto.
  - now apply get_valid_length_loop_eof.
Qed.

(** *** The driver *)

Lemma lstrip_nil_iff (s : str) : lstrip s = [] <-> blank s.
Proof.
  unfold blank. induction s as [|c s IH]; cbn [lstrip].
  - split; [constructor|reflexivity].
  - destruct (isspace c) eqn:Hc.
    + rewrite IH. split; [intros Hs; constructor; assumption|].
      intros Hs. apply Forall_cons in Hs. tauto.
    + split; [discriminate|]. intros Hs. apply Forall_cons in Hs as [Hc' _]. congruence.
Qed.

Lemma lstrip_head (s : str) c t : lstrip s = c :: t -> isspace c = false.
Proof.
  induction s as [|x s IH]; cbn [lstrip]; [discriminate|].
  destruct (isspace x) eqn:Hx; [exact IH|]. intros [= <- <-]. exact Hx.
Qed.

Lemma rstrip_nil_iff (s : str) : rstrip s = [] <-> blank s.
Proof.
  unfold rstrip. split.
  - intros Hr. apply (f_equal reverse) in Hr. rewrite reverse_involutive in Hr.
    change (reverse []) with (@nil ascii) in Hr.
    apply lstrip_nil_iff in Hr. unfold blank in *.
    rewrite <- (reverse_involutive s). now apply Forall_reverse.
  - intros Hs. assert (lstrip (reverse s) = []) as ->; [|reflexivity].
    apply lstrip_nil_iff. unfold blank in *. now apply Forall_reverse.
Qed.

(** Stripping leaves nothing exactly of the blank strings. *)
Lemma strip_nil_iff (s : str) : strip s = [] <-> blank s.
Proof.
  unfold strip. rewrite rstrip_nil_iff. split.
  - intros Hb. destruct (lstrip s) as [|c t] eqn:Hl; [now apply lstrip_nil_iff|].
    apply lstrip_head in Hl. apply Forall_cons in Hb as [Hc _]. congruence.
  - intros Hb. apply lstrip_nil_iff in Hb. rewrite Hb. constructor.
Qed.

Lemma str_truthy_strip (s : str) : str_truthy (strip s) = false <-> blank s.
Proof.
  rewrite <- strip_nil_iff. destruct (strip s); cbn; split; congruence.
Qed.

Lemma print_percentages_run (pA pC pG pT : pynum) w :
  for_each (lit "ACGT") (λ base,
    p ← pure_result (getitem (bases4 pA pC pG pT) base);
    print ([base] ++ lit ": " ++ format_1f p ++ lit "%")) w
  = (Ok tt,
     set_console (stdin w)
       (stdout w ++ [percentage_line "A" pA; percentage_line "C" pC;
                     percentage_line "G" pG; percentage_line "T" pT]) w).
Proof.
  unfold percentage_line. change (lit "ACGT") with ["A"; "C"; "G"; "T"]%char.
  destruct (getitem_bases4 pA pC pG pT) as (EA & EC & EG & ET).
  cbn [for_each].
  repeat (rewrite ?bind_run, ?print_run; unfold pure_result;
          rewrite ?EA, ?EC, ?EG, ?ET; cbv beta iota).
  rewrite !set_console_twice. cbn [stdin stdout set_console].
  rewrite <- !app_assoc. reflexivity.
Qed.

Lemma plot_stats_run (pA pC pG pT : pynum) w :
  plot_stats (bases4 pA pC pG pT) w
  = (Ok tt, set_figure (figure w ++ chart pA pC pG pT) w).
Proof.
  assert (list_comprehension ["A"; "C"; "G"; "T"]%char (getitem (bases4 pA pC pG pT))
          = Ok [pA; pC; pG; pT]) as Hvalues.
  { destruct (getitem_bases4 pA pC pG pT) as (EA & EC & EG & ET).
    cbn [list_comprehension]. rewrite EA, EC, EG, ET. reflexivity. }
  unfold plot_stats, chart. rewrite bind_run. unfold pure_result. rewrite Hvalues.
  rewrite !plt_then. unfold plt. cbn [figure set_figure].
  rewrite <- !app_assoc. reflexivity.
Qed.

Lemma main_unfold :
  main =
    (length ← get_valid_length;
     seq_id ← input id_prompt;
     seq_id ← (if negb (str_truthy (strip seq_id)) then
                 seq_id ← generate_random_id 8;
                 print (id_report seq_id);;
                 mret seq_id
               else mret seq_id);
     main_after_identifier length seq_id).
Proof. reflexivity. Qed.

(** Once the identifier is chosen, and if every path can be opened, the
    rest of [main] runs to its end: it writes the record under
    [<identifier>.fasta] and only adds to the console. *)
Lemma main_after_identifier_run (length : Z) (seq_id description name : str)
    (rest : list str) w :
  stdin w = description :: name :: rest ->
  (forall path, open_error w path = None) ->
  exists seq_with_name w',
    main_after_identifier length seq_id w = (Ok tt, w') /\
    files w' = <[seq_id ++ lit ".fasta" :=
                   lit ">" ++ seq_id ++ lit " " ++ description ++ nl ++ seq_with_name ++ nl]>
                 (files w) /\
    exists printed, stdout w' = stdout w ++ printed.
Proof.
  intros Hin Hopen. unfold main_after_identifier.
  rewrite bind_run, (input_run _ _ _ _ Hin).
  rewrite bind_run, (input_run _ name rest) by reflexivity.
  rewrite set_console_twice. cbn [stdout set_console].
  rewrite bind_run.
  match goal with |- context [generate_dna_sequence length ?w0] =>
    destruct (generate_dna_sequence_run length w0) as (dna_seq & g1 & Hdna & _) end.
  rewrite Hdna, bind_run.
  match goal with |- context [insert_name dna_seq name ?w0] =>
    destruct (insert_name_run dna_seq name w0) as (i & g2 & _ & Hins) end.
  rewrite Hins. rewrite set_rng_twice.
  rewrite bind_run, save_fasta_run by apply Hopen.
  rewrite !print_then.
  match goal with |- context [calculate_stats ?s] =>
    destruct (calculate_stats_total s) as (pA & pC & pG & pT & cg & Hstats) end.
  rewrite bind_run. unfold pure_result at 1. rewrite Hstats.
  rewrite bind_run, print_percentages_run, print_then, plot_stats_run.
  eexists _, _. split; [reflexivity|].
  cbn [files stdout stdin figure set_files set_console set_rng set_figure].
  split; [reflexivity|].
  rewrite <- !app_assoc. eexists. reflexivity.
Qed.

(** C9.  [main], from the moment the length has been read, with the
    identifier, the description and the name waiting on the console and
    every path open for writing.  It runs to its end, and the identifier
    [seq_id] it names the file after and writes into the header is this:
    for a blank line (empty or whitespace only) a string of exactly 8
    characters, each a lowercase letter or a digit, which the console
    reports; for any other line, that line unchanged. *)
Theorem main_identifier (length : Z) (id_line description name : str)
    (rest : list str) w w1 :
  get_valid_length w = (Ok length, w1) ->
  stdin w1 = id_line :: description :: name :: rest ->
  (forall path, open_error w1 path = None) ->
  exists seq_id seq_with_name w',
    main w = (Ok tt, w') /\
    files w' = <[seq_id ++ lit ".fasta" :=
                   lit ">" ++ seq_id ++ lit " " ++ description ++ nl ++ seq_with_name ++ nl]>
                 (files w1) /\
    (blank id_line ->
       List.length seq_id = 8%nat /\ Forall (λ c, lower_alnum c = true) seq_id /\
       (lit "Wygenerowano losowy ID: " ++ seq_id ++ nl) ∈ stdout w') /\
    (~ blank id_line -> seq_id = id_line).
Proof.
  intros Hlen Hin Hopen. rewrite main_unfold.
  rewrite bind_run, Hlen, bind_run, (input_run _ _ _ _ Hin), bind_run.
  destruct (str_truthy (strip id_line)) eqn:Hblank; cbn [negb].
  - assert (~ blank id_line) as Hnb.
    { intros Hb. apply str_truthy_strip in Hb. congruence. }
    destruct (main_after_identifier_run length id_line description name rest
                (set_console (description :: name :: rest) (stdout w1 ++ [id_prompt]) w1)
                eq_refl Hopen)
      as (seq_with_name & w' & Hrun & Hfiles & _).
    exists id_line, seq_with_name, w'. split; [exact Hrun|].
    split; [exact Hfiles|]. split; [contradiction|reflexivity].
  - apply str_truthy_strip in Hblank. rewrite bind_run.
    match goal with |- context [generate_random_id 8 ?w0] =>
      destruct (generate_random_id_run w0) as (seq_id & g & Hgen & Hlen8 & Halnum) end.
    rewrite Hgen, print_then. unfold mret, M_ret. cbv beta iota.
    match goal with |- context [main_after_identifier length seq_id ?w0] =>
      destruct (main_after_identifier_run length seq_id description name rest w0
                  eq_refl Hopen)
        as (seq_with_name & w' & Hrun & Hfiles & printed & Hout) end.
    exists seq_id, seq_with_name, w'. split; [exact Hrun|].
    split; [exact Hfiles|]. split; [|contradiction].
    intros _. split; [exact Hlen8|]. split; [exact Halnum|].
    rewrite Hout. cbn [stdout set_console set_rng].
    apply elem_of_app. left. apply elem_of_app. right.
    unfold id_report. rewrite <- app_assoc. apply list_elem_of_here.
Qed.

End Runs.

(** ** The theorems on the example world *)

(** C7 at the length 5. *)
Lemma generate_dna_sequence_example :
  1 <= 5 /\
  exists seq g,
    generate_dna_sequence 5 example_world = (Ok seq, set_rng g example_world) /\
    Z.of_nat (length seq) = 5 /\
    Forall is_base seq.
Proof.
  split; [lia|].
  apply (generate_dna_sequence_length_alphabet 5 example_world). lia.
Defined.

(** C3 at a path that already holds a file: the record replaces what was
    there, and its lines are the header and the payload. *)
Lemma save_fasta_example :
  files example_world !! lit "test1.fasta" = Some (lit "old content") /\
  (exists w' text,
     save_fasta (lit "test1.fasta") (lit "test1") (lit "demo") (lit "ACGTname123")
       example_world = (Ok tt, w') /\
     files w' !! lit "test1.fasta" = Some text /\
     split_lines text = [lit ">test1 demo"; lit "ACGTname123"; []]) /\
  split_lines (lit ">" ++ lit "id7" ++ lit " " ++ lit "two words" ++ nl ++ lit "ACxGT" ++ nl)
  = [lit ">" ++ lit "id7" ++ lit " " ++ lit "two words"; lit "ACxGT"; []].
Proof.
  assert (open_error example_world (lit "test1.fasta") = None) as Hopen by reflexivity.
  split; [reflexivity|]. split.
  - exact (proj2 (save_fasta_writes_record (lit "test1.fasta") example_world Hopen)).
  - apply (proj1 (save_fasta_writes_record (lit "test1.fasta") example_world Hopen)
             (lit "id7") (lit "two words") (lit "ACxGT"));
      unfold no_newline; refine (bool_decide_unpack _ _); vm_compute; exact I.
Defined.

(** C4 as it is worded fails: for "test1" and "demo" the first line of the
    file is ">test1 demo"; it is not the marker, a space, the identifier,
    a space and the description. *)
Lemma header_has_no_space_after_marker :
  exists w' text,
    save_fasta (lit "test1.fasta") (lit "test1") (lit "demo") (lit "ACGTname123")
      example_world = (Ok tt, w') /\
    files w' !! lit "test1.fasta" = Some text /\
    head (split_lines text) = Some (lit ">test1 demo") /\
    head (split_lines text) <> Some (lit ">" ++ lit " " ++ lit "test1" ++ lit " " ++ lit "demo").
Proof.
  eexists _, _. split; [apply save_fasta_run; reflexivity|].
  cbn [files set_files]. rewrite lookup_insert_eq.
  split; [reflexivity|]. split; [reflexivity|discriminate].
Qed.

(** The amended C4 at "test1" and "demo". *)
Lemma save_fasta_header_example :
  exists w' text,
    save_fasta (lit "test1.fasta") (lit "test1") (lit "demo") (lit "ACGTname123")
      example_world = (Ok tt, w') /\
    files w' !! lit "test1.fasta" = Some text /\
    head (split_lines text) = Some (lit ">" ++ lit "test1" ++ lit " " ++ lit "demo").
Proof.
  destruct (save_fasta_header_format (lit "test1.fasta") (lit "test1") (lit "demo")
              (lit "ACGTname123") example_world eq_refl)
    as (w' & text & Hrun & Hfile & _ & Hhead).
  exists w', text. split; [exact Hrun|]. split; [exact Hfile|].
  apply Hhead; unfold no_newline; refine (bool_decide_unpack _ _); vm_compute; exact I.
Defined.

(** C8 on a console that offers "abc", "0" and "-3" before "5". *)
Lemma get_valid_length_example :
  get_valid_length example_world
  = (Ok 5,
     set_console [lit "  "; lit "opis"; lit "Ala"]
       (stdout example_world ++ rejections [lit "abc"; lit "0"; lit "-3"] ++ [length_prompt])
       example_world).
Proof.
  apply (proj1 (get_valid_length_retries example_world)
           [lit "abc"; lit "0"; lit "-3"] (lit "5") [lit "  "; lit "opis"; lit "Ala"] 5).
  - reflexivity.
  - repeat constructor.
  - split; [reflexivity|lia].
Defined.

(** C8 as it is worded fails: "never raises" does not hold for every
    sequence of console inputs.  On a console that holds the one line
    "abc" the line is rejected with its message, the prompt comes again,
    and the end of the input raises [EOFError]. *)
Lemma get_valid_length_raises_at_end_of_input :
  get_valid_length (set_console [lit "abc"] [] example_world)
  = (Raise EOFError,
     set_console [] [length_prompt; not_integer_message ++ nl; length_prompt] example_world).
Proof. vm_compute. reflexivity. Qed.

(** C9 on the same console: the identifier line is blank. *)
Lemma main_identifier_example :
  exists seq_id seq_with_name w',
    main example_world = (Ok tt, w') /\
    files w' = <[seq_id ++ lit ".fasta" :=
                   lit ">" ++ seq_id ++ lit " " ++ lit "opis" ++ nl ++ seq_with_name ++ nl]>
                 (files example_world_after_length) /\
    List.length seq_id = 8%nat /\ Forall (λ c, lower_alnum c = true) seq_id /\
    (lit "Wygenerowano losowy ID: " ++ seq_id ++ nl) ∈ stdout w'.
Proof.
  assert (get_valid_length example_world = (Ok 5, example_world_after_length)) as Hlen
    by (vm_compute; reflexivity).
  destruct (main_identifier 5 (lit "  ") (lit "opis") (lit "Ala") []
              example_world example_world_after_length Hlen eq_refl (λ _, eq_refl))
    as (seq_id & seq_with_name & w' & Hrun & Hfiles & Hblank & _).
  exists seq_id, seq_with_name, w'. split; [exact Hrun|]. split; [exact Hfiles|].
  apply Hblank. repeat constructor.
Defined.

(** Every offset from 0 to the length of the sequence, both ends included,
    is the one [insert_name] takes on some draw. *)
Lemma insert_name_every_offset (seq name : str) (i : nat) (w : world (list nat)) :
  (i <= length seq)%nat ->
  insert_name seq name (set_rng [i] w)
  = (Ok (take i seq ++ name ++ drop i seq), set_rng [] w).
Proof.
  intros Hi. unfold insert_name, random_randint.
  destruct (Z.leb_spec (Z.of_nat (length seq) + 1 - 0) 0) as [Hle|_]; [lia|].
  rewrite !bind_run. unfold random_index. cbn [rng set_rng randbelow tape_source tape_randbelow].
  rewrite Nat.mod_small by lia.
  unfold mret, M_ret, slice_until, slice_from.
  rewrite !slice_index_nonneg by lia.
  replace (Z.to_nat (0 + Z.of_nat i)) with i by lia. reflexivity.
Qed.

(** * Further properties of the program

    Properties the code has beyond the statements above: the range and the
    exactness of the percentages, what [calculate_stats] depends on, how
    the functions compose, and how [main] ends. *)

(** ** The percentages *)






(** A value found in the dictionary of the four bases is one of the four. *)
Lemma lookup_bases4_cases {V} (a c g t : V) (k : ascii) (v : V) :
  bases4 a c g t !! k = Some v ->
  (k = "A"%char /\ v = a) \/ (k = "C"%char /\ v = c) \/
  (k = "G"%char /\ v = g) \/ (k = "T"%char /\ v = t).
Proof.
  unfold bases4. intros Hk.
  repeat (apply lookup_insert_Some in Hk as [[<- <-]|[_ Hk]]; [tauto|]).
  rewrite lookup_empty in Hk. discriminate.
Qed.




(** ** What the statistics depend on *)

(** [str.count] of a character does not depend on the order. *)
Lemma str_count_Permutation (s s' : str) (c : ascii) :
  s ≡ₚ s' -> str_count s c = str_count s' c.
Proof.
  unfold str_count. intros Hp. f_equal.
  induction Hp as [|x l l' _ IH|x y l|l l' l'' _ IH1 _ IH2]; cbn [count_occ].
  - reflexivity.
  - rewrite IH. reflexivity.
  - destruct (ascii_dec y c), (ascii_dec x c); reflexivity.
  - congruence.
Qed.

(** X4.  [calculate_stats] sees its argument only through the bases it
    holds: dropping every other character changes nothing, reordering the
    characters changes nothing, and two strings whose bases are the same up
    to order have the same statistics. *)
Theorem calculate_stats_order_and_foreign_characters :
  (forall s : str, calculate_stats (filter is_base s) = calculate_stats s) /\
  (forall s s' : str, s ≡ₚ s' -> calculate_stats s = calculate_stats s') /\
  (forall s s' : str,
     filter is_base s ≡ₚ filter is_base s' -> calculate_stats s = calculate_stats s').
Proof.
  assert (forall s s' : str, s ≡ₚ s' -> calculate_stats s = calculate_stats s') as Hperm.
  { intros s s' Hp. rewrite !calculate_stats_from_counts.
    rewrite !(str_count_Permutation s s') by exact Hp. reflexivity. }
  assert (forall s : str, calculate_stats (filter is_base s) = calculate_stats s) as Hfilter.
  { intros s. rewrite !calculate_stats_from_counts.
    rewrite !str_count_filter_base
      by (refine (bool_decide_unpack _ _); vm_compute; exact I).
    reflexivity. }
  split; [exact Hfilter|]. split; [exact Hperm|].
  intros s s' Hp. rewrite <- (Hfilter s), <- (Hfilter s'). now apply Hperm.
Qed.


(** Splitting at the first occurrence of a character. *)
Lemma app_cons_inj_first (c : ascii) (s s' t t' : str) :
  c ∉ s -> c ∉ s' -> s ++ c :: t = s' ++ c :: t' -> s = s' /\ t = t'.
Proof.
  revert s'. induction s as [|x s IH]; intros [|x' s'] Hs Hs' Heq; cbn in Heq.
  - injection Heq as ->. auto.
  - injection Heq as <- _. exfalso. apply Hs'. apply list_elem_of_here.
  - injection Heq as -> _. exfalso. apply Hs. apply list_elem_of_here.
  - injection Heq as <- Heq.
    apply not_elem_of_cons in Hs as [_ Hs]. apply not_elem_of_cons in Hs' as [_ Hs'].
    destruct (IH s' Hs Hs' Heq) as [-> ->]. auto.
Qed.


(** The filter of [calculate_stats] keeps a string of bases whole and
    empties a string without bases. *)
Lemma filter_all_base (s : str) : Forall is_base s -> filter is_base s = s.
Proof.
  induction 1 as [|c s Hc _ IH]; [reflexivity|].
  rewrite filter_cons_True by exact Hc. rewrite IH. reflexivity.
Qed.

Lemma filter_no_base (s : str) :
  Forall (λ c, c ∉ lit "ACGT") s -> filter is_base s = [].
Proof.
  induction 1 as [|c s Hc _ IH]; [reflexivity|].
  rewrite filter_cons_False by exact Hc. exact IH.
Qed.

(** ** Further runs of the program *)

Section MoreRuns.
Context {G : Type} `{RandomSource G} `{Builtins}.
Implicit Types (w : world G) (g : G).

(** X5.  Round trip of [insert_name] with the filter of
    [calculate_stats]: when the sequence is made of bases and the name has
    none, keeping only the bases of the result gives the sequence back,
    wherever the name was put. *)
Theorem insert_name_filter_round_trip (seq name : str) w :
  Forall is_base seq -> Forall (λ c, c ∉ lit "ACGT") name ->
  exists result g,
    insert_name seq name w = (Ok result, set_rng g w) /\
    filter is_base result = seq.
Proof.
  intros Hseq Hname.
  destruct (insert_name_run seq name w) as (i & g & _ & Hrun).
  eexists _, g. split; [exact Hrun|].
  unfold slice_until, slice_from. rewrite !filter_app, (filter_no_base name Hname).
  rewrite !filter_all_base by (apply Forall_take || apply Forall_drop; exact Hseq).
  rewrite app_nil_l. apply take_drop.
Qed.

(** X6.  A name without any of the four uppercase bases does not change
    the statistics: those of the sequence with the name are those of the
    sequence alone, for every sequence and every offset drawn. *)
Theorem insert_name_keeps_stats (seq name : str) w :
  Forall (λ c, c ∉ lit "ACGT") name ->
  exists result g,
    insert_name seq name w = (Ok result, set_rng g w) /\
    calculate_stats result = calculate_stats seq.
Proof.
  intros Hname.
  destruct (insert_name_run seq name w) as (i & g & _ & Hrun).
  eexists _, g. split; [exact Hrun|].
  rewrite !calculate_stats_from_counts. unfold slice_until, slice_from.
  assert (forall c, c ∈ lit "ACGT" ->
            str_count (take (slice_index seq (Z.of_nat i)) seq ++ name
                       ++ drop (slice_index seq (Z.of_nat i)) seq) c
            = str_count seq c) as Hcount.
  { intros c Hc.
    rewrite <- (str_count_filter_base (_ ++ _) c Hc), <- (str_count_filter_base seq c Hc).
    rewrite !filter_app, (filter_no_base name Hname), app_nil_l, <- filter_app, take_drop.
    reflexivity. }
  rewrite !Hcount by (refine (bool_decide_unpack _ _); vm_compute; exact I).
  reflexivity.
Qed.

(** X7.  [generate_random_id] at a length from 0 up that fits a machine
    word: it returns, touching only the random source, a string of exactly
    that many characters, each a lowercase letter or a digit; the default
    of 8 is one case. *)
Theorem generate_random_id_length_alphabet (length : Z) w :
  0 <= length < 2 ^ 63 ->
  exists seq_id g,
    generate_random_id length w = (Ok seq_id, set_rng g w) /\
    Z.of_nat (List.length seq_id) = length /\
    Forall (λ c, lower_alnum c = true) seq_id.
Proof.
  intros Hlength.
  destruct (choices_loop_run (lit "abcdefghijklmnopqrstuvwxyz0123456789")
              (Z.to_nat length) w)
    as (cs & g & Hrun & Hlen & Hall); [discriminate|].
  exists cs, g. split; [|split].
  - unfold generate_random_id, random_choices. rewrite bind_run, Hrun. reflexivity.
  - lia.
  - eapply Forall_impl; [exact Hall|]. cbn beta. intros c Hc.
    assert (forallb lower_alnum (lit "abcdefghijklmnopqrstuvwxyz0123456789") = true) as Hfa
      by reflexivity.
    rewrite forallb_forall in Hfa. apply Hfa. now apply list_elem_of_In.
Qed.

(** X9.  [get_valid_length] touches the console only: whether it returns
    or ends with an exception, the world after it is the world before it
    with lines taken off the front of the input and lines added to the end
    of the output; the random source, the files and the figure are
    untouched. *)
Theorem get_valid_length_touches_console_only w :
  let w' := snd (get_valid_length w) in
  w' = set_console (stdin w') (stdout w') w /\
  (exists consumed, stdin w = consumed ++ stdin w') /\
  (exists printed, stdout w' = stdout w ++ printed).
Proof.
  unfold get_valid_length.
  destruct (get_valid_length_loop_outcome (stdin w) w eq_refl)
    as [(bad & good & rest & v & Hin & _ & _ & ->)|[_ ->]];
    cbn [snd stdin stdout set_console].
  - split; [reflexivity|]. split.
    + exists (bad ++ [good]). rewrite Hin, <- app_assoc. reflexivity.
    + eexists. reflexivity.
  - split; [reflexivity|]. split.
    + exists (stdin w). rewrite app_nil_r. reflexivity.
    + eexists. reflexivity.
Qed.

(** X10.  [plot_stats] on any dictionary: when the four bases are keys, it
    makes its six plotting calls, the bar chart taking the four values in
    the order A, C, G, T; when one of the four is missing it raises
    [KeyError] before any plotting call, whatever else the dictionary
    holds. *)
Theorem plot_stats_calls (percentages : gmap ascii pynum) w :
  (forall pA pC pG pT,
     percentages !! "A"%char = Some pA -> percentages !! "C"%char = Some pC ->
     percentages !! "G"%char = Some pG -> percentages !! "T"%char = Some pT ->
     plot_stats percentages w = (Ok tt, set_figure (figure w ++ chart pA pC pG pT) w)) /\
  (forall base,
     base ∈ lit "ACGT" -> percentages !! base = None ->
     plot_stats percentages w = (Raise KeyError, w)).
Proof.
  split.
  - intros pA pC pG pT HA HC HG HT.
    unfold plot_stats, chart. rewrite bind_run. unfold pure_result.
    cbn [list_comprehension]. unfold getitem. rewrite HA, HC, HG, HT.
    cbn [mbind result_bind]. rewrite !plt_then. unfold plt. cbn [figure set_figure].
    rewrite <- !app_assoc. reflexivity.
  - intros base Hbase Hnone.
    unfold plot_stats. rewrite bind_run. unfold pure_result.
    cbn [list_comprehension]. unfold getitem.
    apply base_cases in Hbase as [-> | [-> | [-> | ->]]]; rewrite Hnone;
      repeat (match goal with
              | |- context [percentages !! ?k] => destruct (percentages !! k)
              end; cbn [mbind result_bind]); reflexivity.
Qed.

(** X11.  The dictionary [calculate_stats] returns has the four bases as
    its keys and no other, so [plot_stats] applied to it never raises and
    charts the four percentages. *)
Theorem plot_stats_after_calculate_stats (s : str) w :
  exists percentages cg_percent pA pC pG pT,
    calculate_stats s = Ok (percentages, cg_percent) /\
    percentages !! "A"%char = Some pA /\ percentages !! "C"%char = Some pC /\
    percentages !! "G"%char = Some pG /\ percentages !! "T"%char = Some pT /\
    (forall c, c ∉ lit "ACGT" -> getitem percentages c = Raise KeyError) /\
    plot_stats percentages w = (Ok tt, set_figure (figure w ++ chart pA pC pG pT) w).
Proof.
  destruct (calculate_stats_total s) as (pA & pC & pG & pT & cg & Hstats).
  destruct (lookup_bases4 pA pC pG pT) as (LA & LC & LG & LT).
  exists (bases4 pA pC pG pT), cg, pA, pC, pG, pT.
  split; [exact Hstats|]. repeat (split; [assumption|]).
  split; [|apply plot_stats_run].
  intros c Hc. unfold getitem.
  destruct (bases4 pA pC pG pT !! c) as [v|] eqn:Hv; [|reflexivity].
  exfalso. apply Hc.
  apply lookup_bases4_cases in Hv as [[-> _]|[[-> _]|[[-> _]|[-> _]]]];
    refine (bool_decide_unpack _ _); vm_compute; exact I.
Qed.

(** X12.  Two calls of [save_fasta] on the same path, one after the other,
    that both return: the world they leave is the one the second call
    alone would have left.  The file is truncated when it is opened again,
    so nothing of the first record remains, whatever the two records
    are. *)
Theorem save_fasta_last_write_wins (path a b c a' b' c' : str) w w1 w2 :
  save_fasta path a b c w = (Ok tt, w1) ->
  save_fasta path a' b' c' w1 = (Ok tt, w2) ->
  save_fasta path a' b' c' w = (Ok tt, w2).
Proof.
  intros Hfirst Hsecond.
  destruct (open_error w path) as [e|] eqn:Hopen.
  { rewrite (save_fasta_open_fails _ _ _ _ _ e Hopen) in Hfirst. discriminate. }
  rewrite (save_fasta_run path a b c w Hopen) in Hfirst. injection Hfirst as <-.
  rewrite save_fasta_run in Hsecond by exact Hopen. injection Hsecond as <-.
  rewrite (save_fasta_run path a' b' c' w Hopen).
  cbn [files set_files]. rewrite insert_insert_eq. reflexivity.
Qed.

(** X13.  Reading a record back.  When the identifiers have neither a space
    nor a line break and the descriptions have no line break, the file
    determines the three fields: two calls that leave the same file were
    given the same identifier, description and payload.  The condition on
    the identifier is needed: a space can be moved between the identifier
    and the description without any change to what is written. *)
Theorem save_fasta_fields_from_file (path : str) w :
  open_error w path = None ->
  (forall a b c a' b' c' : str,
     no_space a -> no_space a' -> no_newline a -> no_newline a' ->
     no_newline b -> no_newline b' ->
     files (snd (save_fasta path a b c w)) !! path
     = files (snd (save_fasta path a' b' c' w)) !! path ->
     a = a' /\ b = b' /\ c = c') /\
  (forall a b c payload : str,
     save_fasta path (a ++ lit " " ++ b) c payload w
     = save_fasta path a (b ++ lit " " ++ c) payload w).
Proof.
  intros Hopen. split.
  - intros a b c a' b' c' Hs Hs' Hn Hn' Hd Hd'.
    rewrite !save_fasta_run by assumption. cbn [snd files set_files].
    rewrite !lookup_insert_eq. intros [= Heq].
    revert Heq. unfold fasta_record, no_space, no_newline in *.
    cbn [lit list_ascii_of_string app]. intros Heq.
    apply app_cons_inj_first in Heq as [-> Heq]; [|assumption..].
    apply app_cons_inj_first in Heq as [-> Heq]; [|assumption..].
    apply app_inv_tail in Heq. auto.
  - intros a b c payload. unfold save_fasta. rewrite <- !app_assoc. reflexivity.
Qed.

(** ** The ends of [main] *)

(** The identifier step of [main]: what it leaves on the console and which
    identifier it hands on. *)
Lemma choose_identifier_run {A} (id_line : str) (k : str → M G A) w :
  exists seq_id report g,
    ((if negb (str_truthy (strip id_line)) then
        seq_id ← generate_random_id 8;
        print (id_report seq_id);;
        mret seq_id
      else mret id_line) ≫= k) w
    = k seq_id (set_rng g (set_console (stdin w) (stdout w ++ report) w)) /\
    (blank id_line ->
       report = [id_report seq_id ++ nl] /\
       List.length seq_id = 8%nat /\ Forall (λ c, lower_alnum c = true) seq_id) /\
    (~ blank id_line -> seq_id = id_line /\ report = []).
Proof.
  rewrite bind_run.
  destruct (str_truthy (strip id_line)) eqn:Hblank; cbn [negb].
  - assert (~ blank id_line) as Hnb.
    { intros Hb. apply str_truthy_strip in Hb. congruence. }
    exists id_line, [], (rng w). split; [|split; [contradiction|auto]].
    unfold mret, M_ret. rewrite app_nil_r. destruct w; reflexivity.
  - apply str_truthy_strip in Hblank. rewrite bind_run.
    destruct (generate_random_id_run w) as (seq_id & g & Hgen & Hlen8 & Halnum).
    exists seq_id, [id_report seq_id ++ nl], g. split; [|split; [auto|contradiction]].
    rewrite Hgen, print_then. unfold mret, M_ret. cbv beta iota.
    destruct w; reflexivity.
Qed.

(** The rest of [main] when the file cannot be opened. *)
Lemma main_after_identifier_open_fails (length : Z) (seq_id description name : str)
    (rest : list str) (e : exn) w :
  stdin w = description :: name :: rest ->
  (forall path, open_error w path = Some e) ->
  exists g,
    main_after_identifier length seq_id w
    = (Raise e,
       set_rng g (set_console rest
                    (stdout w ++ [lit "Podaj opis sekwencji: "; lit "Podaj imię: "]) w)).
Proof.
  intros Hin Hopen. unfold main_after_identifier.
  rewrite bind_run, (input_run _ _ _ _ Hin).
  rewrite bind_run, (input_run _ name rest) by reflexivity.
  rewrite set_console_twice. cbn [stdout set_console].
  rewrite bind_run.
  match goal with |- context [generate_dna_sequence length ?w0] =>
    destruct (generate_dna_sequence_run length w0) as (dna_seq & g1 & Hdna & _) end.
  rewrite Hdna, bind_run.
  match goal with |- context [insert_name dna_seq name ?w0] =>
    destruct (insert_name_run dna_seq name w0) as (i & g2 & _ & Hins) end.
  rewrite Hins, set_rng_twice.
  rewrite bind_run, (save_fasta_open_fails _ _ _ _ _ e) by apply Hopen.
  exists g2. rewrite <- app_assoc. reflexivity.
Qed.

(** X14.  [main] when [open] fails with the exception [e], the length
    having been read and three more lines waiting on the console: the run
    ends with [e]; no file is written and nothing is plotted; the three
    lines have been read, and the last thing on the console is the prompt
    for the name: nothing is printed about a saved file or statistics. *)
Theorem main_stops_when_open_fails (length : Z) (id_line description name : str)
    (rest : list str) (e : exn) w w1 :
  get_valid_length w = (Ok length, w1) ->
  stdin w1 = id_line :: description :: name :: rest ->
  (forall path, open_error w1 path = Some e) ->
  exists w',
    main w = (Raise e, w') /\
    files w' = files w1 /\ figure w' = figure w1 /\ stdin w' = rest /\
    last (stdout w') = Some (lit "Podaj imię: ").
Proof.
  intros Hlen Hin Hopen. rewrite main_unfold.
  rewrite bind_run, Hlen, bind_run, (input_run _ _ _ _ Hin).
  match goal with |- context [_ ≫= ?k] =>
    destruct (choose_identifier_run id_line k
                (set_console (description :: name :: rest) (stdout w1 ++ [id_prompt]) w1))
      as (seq_id & report & g & -> & _) end.
  match goal with |- context [main_after_identifier length seq_id ?w0] =>
    destruct (main_after_identifier_open_fails length seq_id description name rest e w0
                eq_refl Hopen) as (g' & ->) end.
  eexists. split; [reflexivity|].
  cbn [files figure stdin stdout set_rng set_console].
  repeat (split; [reflexivity|]).
  change [lit "Podaj opis sekwencji: "; lit "Podaj imię: "]
    with ([lit "Podaj opis sekwencji: "] ++ [lit "Podaj imię: "]).
  rewrite app_assoc. apply last_snoc.
Qed.


(** The rest of [main] when the console ends before the name is read. *)
Lemma main_after_identifier_eof (length : Z) (seq_id : str) w :
  (List.length (stdin w) < 2)%nat ->
  exists w', main_after_identifier length seq_id w = (Raise EOFError, w') /\
    files w' = files w /\ figure w' = figure w /\ stdin w' = [].
Proof.
  intros Hshort. unfold main_after_identifier. rewrite bind_run.
  destruct (stdin w) as [|description [|name rest]] eqn:Hin; [| |cbn in Hshort; lia].
  - rewrite (input_eof _ _ Hin). eexists. split; [reflexivity|]. repeat split; reflexivity.
  - rewrite (input_run _ _ _ _ Hin), bind_run, input_eof by reflexivity.
    eexists. split; [reflexivity|]. repeat split; reflexivity.
Qed.

(** The rest of [main] when it can: the complete run. *)
Lemma main_after_identifier_report (length : Z) (seq_id description name : str)
    (rest : list str) w :
  stdin w = description :: name :: rest ->
  open_error w (seq_id ++ lit ".fasta") = None ->
  exists w', main_after_identifier length seq_id w = (Ok tt, w') /\
    stdin w' = rest /\ main_report length seq_id description name w w'.
Proof.
  intros Hin Hopen. unfold main_after_identifier.
  rewrite bind_run, (input_run _ _ _ _ Hin).
  rewrite bind_run, (input_run _ name rest) by reflexivity.
  rewrite set_console_twice. cbn [stdout set_console].
  rewrite bind_run.
  match goal with |- context [generate_dna_sequence length ?w0] =>
    destruct (generate_dna_sequence_run length w0) as (dna_seq & g1 & Hdna & Hlen & Hall) end.
  rewrite Hdna, bind_run.
  match goal with |- context [insert_name dna_seq name ?w0] =>
    destruct (insert_name_run dna_seq name w0) as (i & g2 & Hi & Hins) end.
  rewrite Hins, set_rng_twice.
  unfold slice_until, slice_from. rewrite !slice_index_nonneg by lia.
  replace (Z.to_nat (Z.of_nat i)) with i by lia.
  rewrite bind_run, save_fasta_run by exact Hopen.
  rewrite !print_then.
  destruct (calculate_stats_total (take i dna_seq ++ name ++ drop i dna_seq))
    as (pA & pC & pG & pT & cg & Hstats).
  rewrite bind_run. unfold pure_result at 1. rewrite Hstats.
  rewrite bind_run, print_percentages_run, print_then, plot_stats_run.
  eexists. split; [reflexivity|].
  cbn [files stdout stdin figure set_files set_console set_rng set_figure].
  split; [reflexivity|].
  exists dna_seq, i, pA, pC, pG, pT, cg. cbv zeta.
  cbn [files stdout stdin figure set_files set_console set_rng set_figure].
  repeat (split; [first [assumption | reflexivity]|]).
  exists (stdout w ++ [lit "Podaj opis sekwencji: "; lit "Podaj imię: "]).
  rewrite <- !app_assoc. reflexivity.
Qed.

(** X15.  [main] needs an accepted length and three more lines.  When the
    console ends before that (after rejected lines only, or with fewer
    than three lines after the accepted length) the run ends with
    [EOFError]: every line has been read, no file has been written and
    nothing has been plotted, whatever [open] would have done. *)
Theorem main_console_ends_early w :
  (Forall rejected_length (stdin w) \/
   exists bad good v rest,
     stdin w = bad ++ good :: rest /\ Forall rejected_length bad /\
     accepted_length good v /\ (List.length rest < 3)%nat) ->
  exists w',
    main w = (Raise EOFError, w') /\
    files w' = files w /\ figure w' = figure w /\ stdin w' = [].
Proof.
  rewrite main_unfold.
  intros [Hall|(bad & good & v & rest & Hin & Hbad & Hgood & Hshort)].
  - rewrite bind_run. unfold get_valid_length.
    rewrite (get_valid_length_loop_eof (stdin w) w eq_refl Hall).
    eexists. split; [reflexivity|]. repeat split; reflexivity.
  - rewrite bind_run. unfold get_valid_length.
    rewrite (get_valid_length_loop_retries bad good rest v w Hin Hbad Hgood).
    rewrite bind_run.
    destruct rest as [|id_line lines].
    { rewrite input_eof by reflexivity.
      eexists. split; [reflexivity|]. repeat split; reflexivity. }
    rewrite (input_run _ id_line lines) by reflexivity.
    match goal with |- context [_ ≫= ?k] =>
      destruct (choose_identifier_run id_line k
                  (set_console lines
                     (stdout (set_console (id_line :: lines)
                                (stdout w ++ rejections bad ++ [length_prompt]) w)
                      ++ [id_prompt])
                     (set_console (id_line :: lines)
                        (stdout w ++ rejections bad ++ [length_prompt]) w)))
        as (seq_id & report & g & -> & _)
    end.
    match goal with |- context [main_after_identifier v seq_id ?w0] =>
      destruct (main_after_identifier_eof v seq_id w0) as (w' & -> & Hf & Hfig & Hin')
    end.
    { cbn [stdin set_rng set_console]. cbn in Hshort. lia. }
    exists w'. split; [reflexivity|]. split; [exact Hf|]. split; [exact Hfig|exact Hin'].
Qed.

(** X16.  A complete run of [main].  On a console that holds rejected
    lines, an accepted length, an identifier line, a description and a
    name, and with every path open for writing, [main] returns and leaves
    the lines after the name unread.  The identifier is the identifier
    line, or 8 generated characters when that line is blank.  The
    sequence generated has the accepted length and only bases; the payload
    is the sequence with the name read from the console spliced in at an
    offset within it.  The one file written is named after the identifier
    and holds the record of the identifier, the description read from the
    console and the payload.  The statistics are those of the payload,
    name included, and the same values end the console output, one line
    per base and one for C+G, and make the bars of the chart. *)
Theorem main_outputs_agree (bad : list str) (good id_line description name : str)
    (rest : list str) (length : Z) w :
  stdin w = bad ++ good :: id_line :: description :: name :: rest ->
  Forall rejected_length bad -> accepted_length good length ->
  (forall path, open_error w path = None) ->
  exists (seq_id dna_seq : str) (offset : nat) pA pC pG pT cg_percent w' before,
    let seq_with_name := take offset dna_seq ++ name ++ drop offset dna_seq in
    main w = (Ok tt, w') /\ stdin w' = rest /\
    (~ blank id_line -> seq_id = id_line) /\
    (blank id_line ->
       List.length seq_id = 8%nat /\ Forall (λ c, lower_alnum c = true) seq_id) /\
    Z.of_nat (List.length dna_seq) = length /\ Forall is_base dna_seq /\
    (offset <= List.length dna_seq)%nat /\
    calculate_stats seq_with_name = Ok (bases4 pA pC pG pT, cg_percent) /\
    files w' = <[seq_id ++ lit ".fasta" := fasta_record seq_id description seq_with_name]>
                 (files w) /\
    figure w' = figure w ++ chart pA pC pG pT /\
    stdout w' = before ++
      [nl ++ lit "Sekwencja została zapisana do pliku " ++ seq_id ++ lit ".fasta" ++ nl;
       lit "Statystyki sekwencji:" ++ nl;
       percentage_line "A" pA; percentage_line "C" pC;
       percentage_line "G" pG; percentage_line "T" pT;
       lit "%CG: " ++ format_1f cg_percent ++ nl].
Proof.
  intros Hin Hbad Hgood Hopen. rewrite main_unfold.
  rewrite bind_run. unfold get_valid_length.
  rewrite (get_valid_length_loop_retries bad good _ length w Hin Hbad Hgood).
  rewrite bind_run, (input_run _ id_line (description :: name :: rest)) by reflexivity.
  match goal with |- context [_ ≫= ?k] =>
    destruct (choose_identifier_run id_line k
                (set_console (description :: name :: rest)
                   (stdout (set_console (id_line :: description :: name :: rest)
                              (stdout w ++ rejections bad ++ [length_prompt]) w)
                    ++ [id_prompt])
                   (set_console (id_line :: description :: name :: rest)
                      (stdout w ++ rejections bad ++ [length_prompt]) w)))
      as (seq_id & report & g & -> & Hblank & Hnonblank)
  end.
  match goal with |- context [main_after_identifier length seq_id ?w0] =>
    destruct (main_after_identifier_report length seq_id description name rest w0
                eq_refl (Hopen _))
      as (w' & -> & Hrest & dna_seq & offset & pA & pC & pG & pT & cg & Hlen & Hall & Hoff
          & Hstats & Hfiles & Hfigure & before & Hout)
  end.
  exists seq_id, dna_seq, offset, pA, pC, pG, pT, cg, w', before. cbv zeta.
  split; [reflexivity|]. split; [exact Hrest|].
  split; [intros Hnb; apply (Hnonblank Hnb)|].
  split; [intros Hb; apply (Hblank Hb)|].
  split; [destruct Hgood as [_ Hpos]; lia|].
  split; [exact Hall|]. split; [exact Hoff|]. split; [exact Hstats|].
  split; [exact Hfiles|]. split; [exact Hfigure|exact Hout].
Qed.

End MoreRuns.

(** ** The further properties on examples *)


(** X4 at two strings with the bases A, C and G in different orders and
    different foreign characters. *)
Lemma calculate_stats_order_example :
  calculate_stats (lit "GxAyC") = calculate_stats (lit "zCAG").
Proof.
  apply (proj2 (proj2 calculate_stats_order_and_foreign_characters)).
  refine (bool_decide_unpack _ _). vm_compute. exact I.
Defined.

(** X5 at the sequence "ACGT" and the name "ala". *)
Lemma insert_name_filter_round_trip_example :
  exists result g,
    insert_name (lit "ACGT") (lit "ala") example_world = (Ok result, set_rng g example_world) /\
    filter is_base result = lit "ACGT".
Proof.
  apply (insert_name_filter_round_trip (lit "ACGT") (lit "ala") example_world);
    refine (bool_decide_unpack _ _); vm_compute; exact I.
Defined.

(** X6 at the sequence "CG" and the name "ala": in lowercase the name
    leaves the statistics alone. *)
Lemma insert_name_keeps_stats_example :
  exists result g,
    insert_name (lit "CG") (lit "ala") example_world = (Ok result, set_rng g example_world) /\
    calculate_stats result = calculate_stats (lit "CG").
Proof.
  apply (insert_name_keeps_stats (lit "CG") (lit "ala") example_world).
  refine (bool_decide_unpack _ _). vm_compute. exact I.
Defined.

(** X7 at the length 12. *)
Lemma generate_random_id_example :
  exists seq_id g,
    generate_random_id 12 example_world = (Ok seq_id, set_rng g example_world) /\
    Z.of_nat (List.length seq_id) = 12 /\
    Forall (λ c, lower_alnum c = true) seq_id.
Proof.
  apply (generate_random_id_length_alphabet 12 example_world). lia.
Defined.

(** X10 at a complete dictionary and at one that lacks C. *)
Lemma plot_stats_calls_example :
  plot_stats (bases4 (PyInt 1) (PyInt 2) (PyInt 3) (PyInt 4)) example_world
  = (Ok tt,
     set_figure (figure example_world ++ chart (PyInt 1) (PyInt 2) (PyInt 3) (PyInt 4))
       example_world) /\
  plot_stats (<["A"%char := PyInt 1]> ∅) example_world = (Raise KeyError, example_world).
Proof.
  split.
  - apply (proj1 (plot_stats_calls (bases4 (PyInt 1) (PyInt 2) (PyInt 3) (PyInt 4))
                    example_world)); vm_compute; reflexivity.
  - apply (proj2 (plot_stats_calls (<["A"%char := PyInt 1]> ∅) example_world) "C"%char).
    + refine (bool_decide_unpack _ _). vm_compute. exact I.
    + vm_compute. reflexivity.
Defined.

(** X12 at two records for the path "a.fasta". *)
Lemma save_fasta_last_write_wins_example :
  save_fasta (lit "a.fasta") (lit "a") (lit "second") (lit "TT") example_world
  = (Ok tt,
     snd (save_fasta (lit "a.fasta") (lit "a") (lit "second") (lit "TT")
            (snd (save_fasta (lit "a.fasta") (lit "a") (lit "first") (lit "ACGT")
                    example_world)))).
Proof.
  apply (save_fasta_last_write_wins (lit "a.fasta")
           (lit "a") (lit "first") (lit "ACGT") (lit "a") (lit "second") (lit "TT")
           example_world
           (snd (save_fasta (lit "a.fasta") (lit "a") (lit "first") (lit "ACGT")
                   example_world))).
  - rewrite save_fasta_run by reflexivity. reflexivity.
  - rewrite !save_fasta_run by reflexivity. reflexivity.
Defined.

(** X13 at the record of "test1" and "demo", and at the two ways of
    reading the header ">a b c". *)
Lemma save_fasta_fields_example :
  (lit "test1" = lit "test1" /\ lit "demo" = lit "demo" /\ lit "ACGT" = lit "ACGT") /\
  save_fasta (lit "x.fasta") (lit "a" ++ lit " " ++ lit "b") (lit "c") (lit "ACGT") example_world
  = save_fasta (lit "x.fasta") (lit "a") (lit "b" ++ lit " " ++ lit "c") (lit "ACGT")
      example_world.
Proof.
  split.
  - apply (proj1 (save_fasta_fields_from_file (lit "x.fasta") example_world eq_refl)
             (lit "test1") (lit "demo") (lit "ACGT") (lit "test1") (lit "demo") (lit "ACGT"));
      unfold no_space, no_newline; refine (bool_decide_unpack _ _); vm_compute; exact I.
  - apply (proj2 (save_fasta_fields_from_file (lit "x.fasta") example_world eq_refl)).
Defined.

(** X14 in that world. *)
Lemma main_stops_when_open_fails_example :
  exists w',
    main closed_world = (Raise OSError, w') /\
    files w' = ∅ /\ figure w' = [] /\ stdin w' = [] /\
    last (stdout w') = Some (lit "Podaj imię: ").
Proof.
  apply (main_stops_when_open_fails 3 (lit "x") (lit "opis") (lit "Ala") [] OSError
           closed_world
           (set_console [lit "x"; lit "opis"; lit "Ala"] [length_prompt] closed_world)).
  - vm_compute. reflexivity.
  - reflexivity.
  - intros path. reflexivity.
Defined.

(** X15 on the example console cut after the description: the length 5
    is accepted, and two lines follow it. *)
Lemma main_console_ends_early_example :
  exists w',
    main (set_console [lit "abc"; lit "5"; lit "id1"; lit "opis"] [] example_world)
    = (Raise EOFError, w') /\
    files w' = files example_world /\ figure w' = figure example_world /\ stdin w' = [].
Proof.
  apply (main_console_ends_early
           (set_console [lit "abc"; lit "5"; lit "id1"; lit "opis"] [] example_world)).
  right. exists [lit "abc"], (lit "5"), 5, [lit "id1"; lit "opis"].
  split; [reflexivity|]. split; [repeat constructor|].
  split; [split; [reflexivity|lia]|]. cbn. lia.
Defined.

(** X16 on the example console. *)
Lemma main_outputs_agree_example :
  exists (seq_id dna_seq : str) (offset : nat) pA pC pG pT cg_percent w' before,
    let seq_with_name := take offset dna_seq ++ lit "Ala" ++ drop offset dna_seq in
    main example_world = (Ok tt, w') /\ stdin w' = [] /\
    (~ blank (lit "  ") -> seq_id = lit "  ") /\
    (blank (lit "  ") ->
       List.length seq_id = 8%nat /\ Forall (λ c, lower_alnum c = true) seq_id) /\
    Z.of_nat (List.length dna_seq) = 5 /\ Forall is_base dna_seq /\
    (offset <= List.length dna_seq)%nat /\
    calculate_stats seq_with_name = Ok (bases4 pA pC pG pT, cg_percent) /\
    files w' = <[seq_id ++ lit ".fasta" := fasta_record seq_id (lit "opis") seq_with_name]>
                 (files example_world) /\
    figure w' = figure example_world ++ chart pA pC pG pT /\
    stdout w' = before ++
      [nl ++ lit "Sekwencja została zapisana do pliku " ++ seq_id ++ lit ".fasta" ++ nl;
       lit "Statystyki sekwencji:" ++ nl;
       percentage_line "A" pA; percentage_line "C" pC;
       percentage_line "G" pG; percentage_line "T" pT;
       lit "%CG: " ++ format_1f cg_percent ++ nl].
Proof.
  apply (main_outputs_agree [lit "abc"; lit "0"; lit "-3"] (lit "5") (lit "  ") (lit "opis")
           (lit "Ala") [] 5 example_world).
  - reflexivity.
  - repeat constructor.
  - split; [reflexivity|lia].
  - intros path. reflexivity.
Defined.
